(** * Host lifecycle manager ([src/modules/host.py]): model and properties

    The module is Python over a MongoDB collection and a handful of
    collaborators imported from [common] and [modules.cluster].  The model
    keeps the shape of the code:

    - Python values are [pyval]; a dict with string keys (a Mongo document,
      the [d] of [update], a serialized host) is a [gmap string pyval];
    - the builtins the handler applies to values of unknown type
      ([startswith], [+], [in], [int], [len], [-], [<], [==], truthiness)
      are partial and answer with the exception Python raises;
    - every method is a computation in a state-and-exception monad: an
      exception aborts the method but keeps what was done before it;
    - the state is the [world]: the documents of [db["host"]] in insertion
      order, the next ObjectId, and the trace of every call made on one
      document of the collection ([find_one], [insert_one],
      [find_one_and_update], [delete_one]), on the collaborators, and of
      every thread started; the cursor of [find], which [list] reads, leaves
      nothing in the trace;
    - a thread is started, not run: what [create_cluster_work] and
      [cluster_handler.delete] do belongs to the cluster module;
    - the collaborators answer through an [Env], one per call of the
      handler, since they talk to the network;
    - the arguments of [create] on which it calls [str] methods or compares
      with a number at once are typed ([daemon_url], [log_server] : string,
      [capacity] : Z, the two flags : bool); the others are any value.

    Logging is not modelled, nor is the body of [create_cluster_work], which
    draws at random and calls the cluster module. *)

From Stdlib Require Import ZArith.
From stdpp Require Import base option list strings pretty gmap fin_maps.

Local Open Scope string_scope.
Local Open Scope list_scope.

(** ** Python values *)

#[warnings="-register-all"]
Inductive pyval : Type :=
| PNone
| PBool (b : bool)
| PInt (z : Z)
| PStr (s : string)
| POid (n : N)          (* bson ObjectId *)
| PTime (t : Z)         (* datetime *)
| PList (l : list pyval).

Inductive pyexn : Type :=
| KeyError (k : string)
| TypeError (msg : string)
| ValueError (msg : string)
| AttributeError (msg : string).

Inductive res (A : Type) : Type :=
| Ok (a : A)
| Raise (e : pyexn).
Arguments Ok {A} a.
Arguments Raise {A} e.

(** [x in s] on strings: [p] occurs in [s]. *)
Fixpoint contains (p s : string) : bool :=
  String.prefix p s ||
  match s with
  | EmptyString => false
  | String _ s' => contains p s'
  end.

Module Py.

(** bool is a subclass of int *)
Definition as_int (v : pyval) : option Z :=
  match v with
  | PBool b => Some (Z.b2z b)
  | PInt z => Some z
  | _ => None
  end.

(** [a == b] *)
Fixpoint eq (a b : pyval) : bool :=
  match as_int a, as_int b with
  | Some x, Some y => Z.eqb x y
  | _, _ =>
    match a, b with
    | PNone, PNone => true
    | PStr x, PStr y => String.eqb x y
    | POid x, POid y => N.eqb x y
    | PTime x, PTime y => Z.eqb x y
    | PList xs, PList ys =>
      (fix go (xs ys : list pyval) : bool :=
         match xs, ys with
         | [], [] => true
         | x :: xs', y :: ys' => eq x y && go xs' ys'
         | _, _ => false
         end) xs ys
    | _, _ => false
    end
  end.

(** truth value of [v] in [if v] / [not v] *)
Definition truthy (v : pyval) : bool :=
  match v with
  | PNone => false
  | PBool b => b
  | PInt z => negb (Z.eqb z 0)
  | PStr s => negb (String.eqb s "")
  | POid _ => true
  | PTime _ => true
  | PList l => match l with [] => false | _ => true end
  end.

(** truth value of a dict: non-empty *)
Definition truthy_dict (d : gmap string pyval) : bool :=
  negb (Nat.eqb (size d) 0).

(** [k in d] *)
Definition has_key (d : gmap string pyval) (k : string) : bool :=
  match d !! k with
  | Some _ => true
  | None => false
  end.

(** [d.get(k)] *)
Definition get (d : gmap string pyval) (k : string) : pyval :=
  default PNone (d !! k).

(** [d.get(k, dflt)] *)
Definition get_or (d : gmap string pyval) (k : string) (dflt : pyval) : pyval :=
  default dflt (d !! k).

(** [d[k]] *)
Definition getitem (d : gmap string pyval) (k : string) : res pyval :=
  match d !! k with
  | Some v => Ok v
  | None => Raise (KeyError k)
  end.

(** [v.startswith(p)] *)
Definition startswith (v : pyval) (p : string) : res bool :=
  match v with
  | PStr s => Ok (String.prefix p s)
  | _ => Raise (AttributeError "startswith")
  end.

(** [p + v] for a string literal [p] *)
Definition str_add (p : string) (v : pyval) : res pyval :=
  match v with
  | PStr s => Ok (PStr (p +:+ s))
  | _ => Raise (TypeError "can only concatenate str to str")
  end.

(** [p in v] for a string literal [p] *)
Definition str_in (p : string) (v : pyval) : res bool :=
  match v with
  | PStr s => Ok (contains p s)
  | PList l => Ok (existsb (eq (PStr p)) l)
  | _ => Raise (TypeError "argument is not iterable")
  end.

(** [len(v)] *)
Definition len (v : pyval) : res Z :=
  match v with
  | PStr s => Ok (Z.of_nat (String.length s))
  | PList l => Ok (Z.of_nat (length l))
  | _ => Raise (TypeError "object has no len()")
  end.

(** [a - n] for an int [n] *)
Definition sub (a : pyval) (n : Z) : res Z :=
  match as_int a with
  | Some x => Ok (x - n)%Z
  | None => Raise (TypeError "unsupported operand type(s) for -")
  end.

(** [a < n] for an int [n] *)
Definition lt (a : pyval) (n : Z) : res bool :=
  match as_int a with
  | Some x => Ok (Z.ltb x n)
  | None => Raise (TypeError "'<' not supported")
  end.

Section Int.
(** What [int] makes of a string is left to the caller of the model:
    [None] is a [ValueError]. *)
Variable int_of_str : string → option Z.

(** [int(v)] *)
Definition int (v : pyval) : res Z :=
  match v with
  | PBool b => Ok (Z.b2z b)
  | PInt z => Ok z
  | PStr s =>
    match int_of_str s with
    | Some z => Ok z
    | None => Raise (ValueError "invalid literal for int()")
    end
  | _ => Raise (TypeError "int() argument must be a string or a number")
  end.
End Int.

End Py.

(** ** The state-and-exception monad *)

Definition M (S A : Type) : Type := S → res A * S.

Definition ret {S A : Type} (a : A) : M S A := λ s, (Ok a, s).

Definition raise {S A : Type} (e : pyexn) : M S A := λ s, (Raise e, s).

Definition bind {S A B : Type} (m : M S A) (k : A → M S B) : M S B :=
  λ s, match m s with
       | (Ok a, s') => k a s'
       | (Raise e, s') => (Raise e, s')
       end.

(** a partial builtin inside a method *)
Definition lift {S A : Type} (r : res A) : M S A := λ s, (r, s).

Notation "'let*' x := m 'in' k" := (bind m (λ x, k))
  (at level 10, x name, m at level 100, k at level 200).
Notation "m ;; k" := (bind m (λ _, k))
  (at level 100, k at level 200, right associativity).

(** ** The collection [db["host"]] and the world around the handler *)

(** A query document: the fields that must match. *)
Definition query : Type := list (string * pyval).

(** A thread the handler starts; it runs outside the handler. *)
Inductive task : Type :=
| CreateClusterWork (port : Z)     (* [create_cluster_work(port)] *)
| ClusterDelete (cid : pyval).     (* [cluster.cluster_handler.delete(cid)] *)

Inductive event : Type :=
| ColFindOne (f : query)
| ColInsertOne (h : gmap string pyval)
| ColFindOneAndUpdate (f : query) (set : gmap string pyval) (after : bool)
| ColDeleteOne (f : query)
| CheckDaemon (url : pyval)
| DetectDaemonType (url : string)
| SetupContainerHost (ty : pyval) (url : string)
| CleanupContainerHost (url : pyval)
| ResetContainerHost (ty url : pyval)
| FindFreeApiPorts (id : string) (n : Z)
| ThreadStart (t : task)
| Sleep (ms : Z).         (* [time.sleep], in milliseconds *)

Record world : Type := World {
  docs : list (gmap string pyval);
  next_oid : N;
  trace : list event
}.

(** What the collaborators and the clock answer during one call. *)
Record Env : Type := {
  check_daemon : pyval → bool;
  detect_daemon_type : string → pyval;
  setup_container_host : pyval → string → bool;
  reset_container_host : pyval → pyval → pyval;
  find_free_api_ports : string → Z → list Z;
  now : Z
}.

(** Constants of [common], which is not part of the sources. *)
Record Common : Type := {
  LOG_TYPES_0 : pyval;               (* [LOG_TYPES[0]] *)
  LOGGING_LEVEL_CLUSTERS_0 : pyval   (* [LOGGING_LEVEL_CLUSTERS[0]] *)
}.

(** The world after one more event. *)
Definition emit (e : event) (w : world) : world :=
  World (docs w) (next_oid w) (trace w ++ [e]).

Module Col.

(** structural equality of stored values: a bool is not a number *)
Fixpoint bson_eqb (a b : pyval) : bool :=
  match a, b with
  | PNone, PNone => true
  | PBool x, PBool y => Bool.eqb x y
  | PInt x, PInt y => Z.eqb x y
  | PStr x, PStr y => String.eqb x y
  | POid x, POid y => N.eqb x y
  | PTime x, PTime y => Z.eqb x y
  | PList xs, PList ys =>
    (fix go (xs ys : list pyval) : bool :=
       match xs, ys with
       | [], [] => true
       | x :: xs', y :: ys' => bson_eqb x y && go xs' ys'
       | _, _ => false
       end) xs ys
  | _, _ => false
  end.

(** [{k: v}] against one document: the field equals [v], or is an array
    with an element equal to [v]; a missing field matches only null. *)
Definition match_field (doc : gmap string pyval) (kv : string * pyval) : bool :=
  match doc !! kv.1 with
  | Some x =>
    bson_eqb kv.2 x ||
    match x with
    | PList l => existsb (bson_eqb kv.2) l
    | _ => false
    end
  | None => bson_eqb kv.2 PNone
  end.

Definition matches (f : query) (doc : gmap string pyval) : bool :=
  forallb (match_field doc) f.

(** first match in insertion order *)
Definition lookup (f : query) (ds : list (gmap string pyval))
  : option (gmap string pyval) :=
  List.find (matches f) ds.

(** apply [g] to the first match *)
Fixpoint modify (f : query) (g : gmap string pyval → gmap string pyval)
    (ds : list (gmap string pyval)) : list (gmap string pyval) :=
  match ds with
  | [] => []
  | doc :: ds' => if matches f doc then g doc :: ds' else doc :: modify f g ds'
  end.

(** drop the first match *)
Fixpoint remove (f : query) (ds : list (gmap string pyval))
  : list (gmap string pyval) :=
  match ds with
  | [] => []
  | doc :: ds' => if matches f doc then ds' else doc :: remove f ds'
  end.

(** one more event in the trace *)
Definition note (e : event) : M world unit :=
  λ w, (Ok (), emit e w).

Definition find_one (f : query) : M world (option (gmap string pyval)) :=
  note (ColFindOne f) ;;
  λ w, (Ok (lookup f (docs w)), w).

(** the document gets a fresh [_id], which is returned *)
Definition insert_one (h : gmap string pyval) : M world N :=
  note (ColInsertOne h) ;;
  λ w, let hid := next_oid w in
       (Ok hid,
        World (docs w ++ [<["_id" := POid hid]> h]) (N.succ hid) (trace w)).

(** [{"$set": set}] on the first match; the document before or after *)
Definition find_one_and_update (f : query) (set : gmap string pyval)
    (after : bool) : M world (option (gmap string pyval)) :=
  note (ColFindOneAndUpdate f set after) ;;
  λ w, let upd doc := set ∪ doc in
       (Ok ((if after then upd else id) <$> lookup f (docs w)),
        World (modify f upd (docs w)) (next_oid w) (trace w)).

Definition delete_one (f : query) : M world unit :=
  note (ColDeleteOne f) ;;
  λ w, (Ok (), World (remove f (docs w)) (next_oid w) (trace w)).

(** what the cursor of [find] yields: every match, in insertion order *)
Definition find (f : query) : M world (list (gmap string pyval)) :=
  λ w, (Ok (List.filter (matches f) (docs w)), w).

End Col.

(** ** Pieces of Python the handler relies on *)

(** [not ins] for what [find_one] answers: [None] or a dict *)
Definition truthy_doc (ins : option (gmap string pyval)) : bool :=
  match ins with
  | Some doc => Py.truthy_dict doc
  | None => false
  end.

(** [for x in v] *)
Definition iter (v : pyval) : res (list pyval) :=
  match v with
  | PList l => Ok l
  | PStr s => Ok ((λ c, PStr (String c "")) <$> String.list_ascii_of_string s)
  | _ => Raise (TypeError "object is not iterable")
  end.

(** [str(hid)] of an ObjectId *)
Definition oid_str (hid : N) : string := pretty hid.

(** [for x in xs: body(x)] *)
Fixpoint for_each {S A : Type} (xs : list A) (body : A → M S unit) : M S unit :=
  match xs with
  | [] => ret ()
  | x :: xs' => body x ;; for_each xs' body
  end.

(** [if c: body] *)
Definition when {S : Type} (c : bool) (body : M S unit) : M S unit :=
  if c then body else ret ().

(** [a and b] *)
Definition and_then {S : Type} (a b : M S bool) : M S bool :=
  let* x := a in if x then b else ret false.

(** An argument passed by position. *)
Inductive pyarg : Type :=
| AVal (v : pyval)
| ADict (d : gmap string pyval).

(** The dict [d] handed to [update] is the caller's object and is changed
    in place: it is part of the state next to the world. *)
Module Arg.

Definition in_world {A : Type} (m : M world A)
  : M (world * gmap string pyval) A :=
  λ s, let (r, w') := m s.1 in (r, (w', s.2)).

Definition this : M (world * gmap string pyval) (gmap string pyval) :=
  λ s, (Ok s.2, s).

(** [k in d] *)
Definition has (k : string) : M (world * gmap string pyval) bool :=
  λ s, (Ok (Py.has_key s.2 k), s).

(** [d[k]] *)
Definition item (k : string) : M (world * gmap string pyval) pyval :=
  λ s, (Py.getitem s.2 k, s).

(** [d[k] = v] *)
Definition setitem (k : string) (v : pyval)
  : M (world * gmap string pyval) unit :=
  λ s, (Ok (), (s.1, <[k := v]> s.2)).

End Arg.

(** The address as [create] stores it (lines 64-65). *)
Definition normalize_daemon_url (daemon_url : string) : string :=
  if negb (String.prefix "tcp://" daemon_url) then "tcp://" +:+ daemon_url
  else daemon_url.

(** ** [HostHandler] *)

Section HostHandler.

Context (C : Common) (E : Env) (int_of_str : string → option Z).

(** calls on the collaborators *)
Definition call_check_daemon (url : pyval) : M world bool :=
  Col.note (CheckDaemon url) ;; ret (check_daemon E url).

Definition call_detect_daemon_type (url : string) : M world pyval :=
  Col.note (DetectDaemonType url) ;; ret (detect_daemon_type E url).

Definition call_setup_container_host (ty : pyval) (url : string) : M world bool :=
  Col.note (SetupContainerHost ty url) ;; ret (setup_container_host E ty url).

Definition call_cleanup_container_host (url : pyval) : M world unit :=
  Col.note (CleanupContainerHost url).

Definition call_reset_container_host (ty url : pyval) : M world pyval :=
  Col.note (ResetContainerHost ty url) ;; ret (reset_container_host E ty url).

Definition call_find_free_api_ports (id : string) (n : Z) : M world (list Z) :=
  Col.note (FindFreeApiPorts id n) ;; ret (find_free_api_ports E id n).

Definition keys : list string :=
  ["id"; "name"; "daemon_url"; "capacity"; "type"; "create_ts"; "status";
   "schedulable"; "clusters"; "log_level"; "log_type"; "log_server"].

Definition _serialize (doc : option (gmap string pyval)) : gmap string pyval :=
  match doc with
  | Some doc =>
    if Py.truthy_dict doc
    then foldl (λ result k, <[k := Py.get_or doc k (PStr "")]> result) ∅ keys
    else ∅
  | None => ∅
  end.

Definition db_update_one (f : query) (set : gmap string pyval) (after : bool)
  : M world (gmap string pyval) :=
  let* doc := Col.find_one_and_update f set after in
  ret (_serialize doc).

(** [def db_set_by_id(self, id, **kwargs)]: one positional parameter;
    [extra] is what a call passes by position after [id]. *)
Definition db_set_by_id (id : string) (extra : list pyarg)
    (kwargs : gmap string pyval) : M world (gmap string pyval) :=
  match extra with
  | [] => db_update_one [("id", PStr id)] kwargs true
  | _ => raise (TypeError "db_set_by_id() takes 2 positional arguments")
  end.

Definition get_by_id (id : string) : M world (gmap string pyval) :=
  let* ins := Col.find_one [("id", PStr id)] in
  if negb (truthy_doc ins) then ret ∅
  else ret (_serialize ins).

Definition is_active (host_id : string) : M world bool :=
  let* host := get_by_id host_id in
  if negb (Py.truthy_dict host) then ret false
  else ret (Py.eq (Py.get host "status") (PStr "active")).

(** the decorator *)
Definition check_status (func : string → M world pyval) (id : string)
  : M world pyval :=
  let* active := is_active id in
  if negb active then ret (PBool false)
  else func id.

Definition fillup_body (id : string) : M world pyval :=
  let* host := get_by_id id in
  if negb (Py.truthy_dict host) then ret (PBool false) else
  let* n := lift (Py.len (Py.get host "clusters")) in
  let* num_new := lift (Py.sub (Py.get host "capacity") n) in
  if (num_new <=? 0)%Z then ret (PBool true) else
  let* free_ports := call_find_free_api_ports id num_new in
  for_each free_ports (λ p,
    Col.note (ThreadStart (CreateClusterWork p)) ;;
    Col.note (Sleep 1000)) ;;
  ret (PBool true).

Definition fillup : string → M world pyval := check_status fillup_body.

Definition clean_body (id : string) : M world pyval :=
  let* host := get_by_id id in
  if negb (Py.truthy_dict host) then ret (PBool false) else
  let* n := lift (Py.len (Py.get host "clusters")) in
  if (n <=? 0)%Z then ret (PBool true) else
  let* host := db_set_by_id id [] {["schedulable" := PBool false]} in
  let* cids := lift (iter (Py.get host "clusters")) in
  for_each cids (λ cid,
    Col.note (ThreadStart (ClusterDelete cid)) ;;
    Col.note (Sleep 200)) ;;
  db_set_by_id id [] {["schedulable" := PBool true]} ;;
  ret (PBool true).

Definition clean : string → M world pyval := check_status clean_body.

Definition reset_body (id : string) : M world pyval :=
  let* host := get_by_id id in
  if negb (Py.truthy_dict host) then ret (PBool false) else
  let* n := lift (Py.len (Py.get host "clusters")) in
  if (0 <? n)%Z then ret (PBool false) else
  call_reset_container_host (Py.get host "type") (Py.get host "daemon_url").

Definition reset : string → M world pyval := check_status reset_body.

Definition create (name : pyval) (daemon_url : string) (capacity : Z)
    (log_level log_type : pyval) (log_server : string) (fillup_flag : bool)
    (schedulable : pyval) (serialization : bool)
  : M world (gmap string pyval) :=
  let daemon_url := normalize_daemon_url daemon_url in
  let* found := Col.find_one [("daemon_url", PStr daemon_url)] in
  if truthy_doc found then ret ∅ else
  let log_server :=
    if negb (contains "://" log_server) then "udp://" +:+ log_server
    else log_server in
  let log_server :=
    if Py.eq log_type (LOG_TYPES_0 C) then "" else log_server in
  let* alive := call_check_daemon (PStr daemon_url) in
  let status := if alive then "active" else "inactive" in
  let* detected_type := call_detect_daemon_type daemon_url in
  let* ok := call_setup_container_host detected_type daemon_url in
  if negb ok then ret ∅ else
  let h : gmap string pyval :=
    list_to_map
      [("name", name);
       ("daemon_url", PStr daemon_url);
       ("create_ts", PTime (now E));
       ("capacity", PInt capacity);
       ("status", PStr status);
       ("clusters", PList []);
       ("type", detected_type);
       ("log_level", log_level);
       ("log_type", log_type);
       ("log_server", PStr log_server);
       ("schedulable", schedulable)] in
  let* hid := Col.insert_one h in
  let* host := db_update_one [("_id", POid hid)] {["id" := PStr (oid_str hid)]} true in
  when ((0 <? capacity)%Z && fillup_flag) (fillup (oid_str hid) ;; ret ()) ;;
  if serialization then ret (_serialize (Some host))
  else ret host.

(** [create(name, daemon_url)] with every default *)
Definition create_default (name : pyval) (daemon_url : string)
  : M world (gmap string pyval) :=
  create name daemon_url 1 (LOGGING_LEVEL_CLUSTERS_0 C) (LOG_TYPES_0 C) ""
         false (PStr "false") true.

Definition update (id : string)
  : M (world * gmap string pyval) (gmap string pyval) :=
  let* h_old := Arg.in_world (get_by_id id) in
  if negb (Py.truthy_dict h_old) then ret ∅ else
  let* c := and_then (Arg.has "daemon_url")
              (let* v := Arg.item "daemon_url" in
               let* b := lift (Py.startswith v "tcp://") in
               ret (negb b)) in
  when c (let* v := Arg.item "daemon_url" in
          let* v' := lift (Py.str_add "tcp://" v) in
          Arg.setitem "daemon_url" v') ;;
  let* c := Arg.has "capacity" in
  when c (let* v := Arg.item "capacity" in
          let* z := lift (Py.int int_of_str v) in
          Arg.setitem "capacity" (PInt z)) ;;
  let* v := Arg.item "capacity" in
  let* n := lift (Py.len (Py.get h_old "clusters")) in
  let* small := lift (Py.lt v n) in
  if small then ret ∅ else
  let* c := and_then (Arg.has "log_server")
              (let* v := Arg.item "log_server" in
               let* b := lift (Py.str_in "://" v) in
               ret (negb b)) in
  when c (let* v := Arg.item "log_server" in
          let* v' := lift (Py.str_add "udp://" v) in
          Arg.setitem "log_server" v') ;;
  let* c := and_then (Arg.has "log_type")
              (let* v := Arg.item "log_type" in
               ret (Py.eq v (LOG_TYPES_0 C))) in
  when c (Arg.setitem "log_server" (PStr "")) ;;
  let* d := Arg.this in
  let* h_new := Arg.in_world (db_set_by_id id [ADict d] ∅) in
  ret (_serialize (Some h_new)).

Definition delete (id : string) : M world bool :=
  let* h := get_by_id id in
  if negb (Py.truthy_dict h) then ret false else
  if Py.truthy (Py.get_or h "clusters" (PStr "")) then ret false else
  call_cleanup_container_host (Py.get h "daemon_url") ;;
  Col.delete_one [("id", PStr id)] ;;
  ret true.

Definition refresh_status (id : string) : M world (gmap string pyval) :=
  let* host := get_by_id id in
  if negb (Py.truthy_dict host) then ret ∅ else
  let* alive := call_check_daemon (Py.get host "daemon_url") in
  if negb alive then db_set_by_id id [] {["status" := PStr "inactive"]}
  else db_set_by_id id [] {["status" := PStr "active"]}.

Definition get_active_host_by_id (id : string) : M world (gmap string pyval) :=
  let* host := Col.find_one [("id", PStr id); ("status", PStr "active")] in
  if negb (truthy_doc host) then ret ∅
  else ret (_serialize host).

(** [list]: the name is that of Rocq's lists, hence the suffix.  The
    default of [filter_data] is the empty query. *)
Definition list_hosts (filter_data : query)
  : M world (list (gmap string pyval)) :=
  let* hosts := Col.find filter_data in
  ret ((λ doc, _serialize (Some doc)) <$> hosts).

End HostHandler.

(** * Properties *)

(** ** Vocabulary of the statements *)

(** The query of [get_by_id]. *)
Definition by_id (id : string) : query := [("id", PStr id)].

(** The query of [create] for an address already stored. *)
Definition by_url (url : string) : query := [("daemon_url", PStr url)].

(** The query of [create] for the document it has just inserted. *)
Definition by_oid (hid : N) : query := [("_id", POid hid)].

(** Classes of events. *)
Definition is_store_call (e : event) : bool :=
  match e with
  | ColFindOne _ | ColInsertOne _ | ColFindOneAndUpdate _ _ _
  | ColDeleteOne _ => true
  | _ => false
  end.

Definition is_store_write (e : event) : bool :=
  match e with
  | ColInsertOne _ | ColFindOneAndUpdate _ _ _ | ColDeleteOne _ => true
  | _ => false
  end.

(** The outcome is a record: a dict that is not empty. *)
Definition returns_record (r : res (gmap string pyval)) : bool :=
  match r with
  | Ok d => Py.truthy_dict d
  | Raise _ => false
  end.

(** The threads started by the loop of [clean], in order. *)
Definition delete_dispatch (cids : list pyval) : list event :=
  flat_map (λ cid, [ThreadStart (ClusterDelete cid); Sleep 200]) cids.

(** The query of [get_active_host_by_id]. *)
Definition by_active_id (id : string) : query :=
  [("id", PStr id); ("status", PStr "active")].

(** The threads started by the loop of [fillup], in order. *)
Definition create_dispatch (ports : list Z) : list event :=
  flat_map (λ p, [ThreadStart (CreateClusterWork p); Sleep 1000]) ports.

(** The store of [w'] is that of [w]: same documents, same next id. *)
Definition same_store (w w' : world) : Prop :=
  docs w' = docs w ∧ next_oid w' = next_oid w.

(** The number of documents that answer to [id]. *)
Definition hosts_with_id (id : string) (ds : list (gmap string pyval)) : nat :=
  length (List.filter (Col.matches (by_id id)) ds).

(** No document carries an ObjectId that the store has still to give out,
    nor the string of one as its ["id"]. *)
Definition fresh_ids (w : world) : Prop :=
  ∀ m, (next_oid w ≤ m)%N →
    Col.lookup (by_oid m) (docs w) = None ∧
    Col.lookup (by_id (oid_str m)) (docs w) = None.

(** The dict [h] that [create] inserts: lines 71-100. *)
Definition host_record (C : Common) (E : Env) (name : pyval)
    (daemon_url : string) (capacity : Z) (log_level log_type : pyval)
    (log_server : string) (schedulable : pyval) : gmap string pyval :=
  let daemon_url := normalize_daemon_url daemon_url in
  let log_server :=
    if negb (contains "://" log_server) then "udp://" +:+ log_server
    else log_server in
  let log_server :=
    if Py.eq log_type (LOG_TYPES_0 C) then "" else log_server in
  let status :=
    if check_daemon E (PStr daemon_url) then "active" else "inactive" in
  list_to_map
    [("name", name);
     ("daemon_url", PStr daemon_url);
     ("create_ts", PTime (now E));
     ("capacity", PInt capacity);
     ("status", PStr status);
     ("clusters", PList []);
     ("type", detect_daemon_type E daemon_url);
     ("log_level", log_level);
     ("log_type", log_type);
     ("log_server", PStr log_server);
     ("schedulable", schedulable)].

(** The documents once [create] has inserted [h] and set its ["id"]. *)
Definition docs_created (w : world) (h : gmap string pyval)
  : list (gmap string pyval) :=
  Col.modify (by_oid (next_oid w))
    ({["id" := PStr (oid_str (next_oid w))]} ∪.)
    (docs w ++ [<["_id" := POid (next_oid w)]> h]).

(** The document [create] leaves in the store for [h]: [h] with the ObjectId
    given by the store and its string under ["id"]. *)
Definition stored_host (w : world) (h : gmap string pyval)
  : gmap string pyval :=
  {["id" := PStr (oid_str (next_oid w))]} ∪ <["_id" := POid (next_oid w)]> h.

(** The calls of [create] up to and including the insertion of [h]. *)
Definition create_calls (E : Env) (w : world) (url : string)
    (h : gmap string pyval) : list event :=
  [ColFindOne (by_url url);
   CheckDaemon (PStr url);
   DetectDaemonType url;
   SetupContainerHost (detect_daemon_type E url) url;
   ColInsertOne h;
   ColFindOneAndUpdate (by_oid (next_oid w))
     {["id" := PStr (oid_str (next_oid w))]} true].

(** The worlds [create] can end in once it has inserted [h] into [w]: what
    follows the insertion only adds calls to the trace. *)
Definition after_create (E : Env) (w : world) (url : string)
    (h : gmap string pyval) (w' : world) : Prop :=
  docs w' = docs_created w h ∧
  next_oid w' = N.succ (next_oid w) ∧
  ∃ t, trace w' = trace w ++ create_calls E w url h ++ t.

(** The normalization of the address in [update]: lines 142-143. *)
Definition update_url : M (world * gmap string pyval) unit :=
  let* c := and_then (Arg.has "daemon_url")
              (let* v := Arg.item "daemon_url" in
               let* b := lift (Py.startswith v "tcp://") in
               ret (negb b)) in
  when c (let* v := Arg.item "daemon_url" in
          let* v' := lift (Py.str_add "tcp://" v) in
          Arg.setitem "daemon_url" v').

(** What [update] does after that: lines 145-155. *)
Definition update_rest (C : Common) (int_of_str : string → option Z)
    (id : string) (h_old : gmap string pyval)
  : M (world * gmap string pyval) (gmap string pyval) :=
  let* c := Arg.has "capacity" in
  when c (let* v := Arg.item "capacity" in
          let* z := lift (Py.int int_of_str v) in
          Arg.setitem "capacity" (PInt z)) ;;
  let* v := Arg.item "capacity" in
  let* n := lift (Py.len (Py.get h_old "clusters")) in
  let* small := lift (Py.lt v n) in
  if small then ret ∅ else
  let* c := and_then (Arg.has "log_server")
              (let* v := Arg.item "log_server" in
               let* b := lift (Py.str_in "://" v) in
               ret (negb b)) in
  when c (let* v := Arg.item "log_server" in
          let* v' := lift (Py.str_add "udp://" v) in
          Arg.setitem "log_server" v') ;;
  let* c := and_then (Arg.has "log_type")
              (let* v := Arg.item "log_type" in
               ret (Py.eq v (LOG_TYPES_0 C))) in
  when c (Arg.setitem "log_server" (PStr "")) ;;
  let* d := Arg.this in
  let* h_new := Arg.in_world (db_set_by_id id [ADict d] ∅) in
  ret (_serialize (Some h_new)).

(** ** A small program logic for the monad *)

(** [m] keeps the invariant [I] of the state and its outcome satisfies [Q],
    whether it returns or raises. *)
Definition hoare {S A : Type} (I : S → Prop) (m : M S A) (Q : res A → Prop)
  : Prop :=
  ∀ s, I s → Q (m s).1 ∧ I (m s).2.

Definition preserves {S A : Type} (I : S → Prop) (m : M S A) : Prop :=
  hoare I m (λ _, True).

(** States of [update] whose world is [w]. *)
Definition in_state (w : world) (s : world * gmap string pyval) : Prop :=
  s.1 = w.

(** States of [update] whose world is [w] and whose dict holds the address
    [url]. *)
Definition with_url (w : world) (url : string)
    (s : world * gmap string pyval) : Prop :=
  s.1 = w ∧ s.2 !! "daemon_url" = Some (PStr url).

(** ** Examples *)

Definition ex_common : Common :=
  {| LOG_TYPES_0 := PStr "local"; LOGGING_LEVEL_CLUSTERS_0 := PStr "DEBUG" |}.

(** Collaborators that find a live docker daemon; [setup_ok] is the answer
    of the host setup. *)
Definition ex_env (setup_ok : bool) : Env :=
  {| check_daemon := λ _, true;
     detect_daemon_type := λ _, PStr "docker";
     setup_container_host := λ _ _, setup_ok;
     reset_container_host := λ _ _, PBool true;
     find_free_api_ports := λ _ n,
       (λ i, 7050 + 100 * Z.of_nat i)%Z <$> seq 0 (Z.to_nat n);
     now := 0 |}.

Definition ex_int_of_str : string → option Z := λ _, None.

Definition ex_empty : world := World [] 0 [].

(** A stored host with id ["h1"]. *)
Definition ex_host (status : string) (capacity : Z) (clusters : list pyval)
  : gmap string pyval :=
  list_to_map
    [("_id", POid 0); ("id", PStr "h1"); ("name", PStr "host-a");
     ("daemon_url", PStr "tcp://10.0.0.1:2375"); ("create_ts", PTime 0);
     ("capacity", PInt capacity); ("status", PStr status);
     ("clusters", PList clusters); ("type", PStr "docker");
     ("log_level", PStr "DEBUG"); ("log_type", PStr "local");
     ("log_server", PStr ""); ("schedulable", PStr "false")].

Definition ex_world (status : string) (capacity : Z) (clusters : list pyval)
  : world :=
  World [ex_host status capacity clusters] 1 [].

Create HintDb preserve.

(** ** Dicts and serialization *)

Lemma foldl_insert_lookup (g : string → pyval) (ks : list string)
    (r : gmap string pyval) (k : string) :
  foldl (λ result k, <[k := g k]> result) r ks !! k =
  if decide (k ∈ ks) then Some (g k) else r !! k.
Proof.
  revert r. induction ks as [|a ks IH]; intros r; cbn [foldl].
  - destruct (decide (k ∈ [])) as [H|H]; [by apply elem_of_nil in H | done].
  - rewrite IH. destruct (decide (k ∈ ks)) as [Hin|Hin].
    + rewrite decide_True; [done | by right].
    + destruct (decide (a = k)) as [->|Hne].
      * rewrite decide_True; [by rewrite lookup_insert_eq | by left].
      * rewrite decide_False; [by rewrite lookup_insert_ne |].
        intros [?|?]%elem_of_cons; congruence.
Qed.

Lemma truthy_dict_lookup (d : gmap string pyval) (k : string) (v : pyval) :
  d !! k = Some v → Py.truthy_dict d = true.
Proof.
  intros H. unfold Py.truthy_dict.
  destruct (Nat.eqb_spec (size d) 0) as [Hz|]; [|done].
  apply map_size_empty_iff in Hz. subst d. by rewrite lookup_empty in H.
Qed.

Lemma truthy_dict_empty : Py.truthy_dict ∅ = false.
Proof. unfold Py.truthy_dict. by rewrite map_size_empty. Qed.

Lemma get_or_some (d : gmap string pyval) (k : string) (v dflt : pyval) :
  d !! k = Some v → Py.get_or d k dflt = v.
Proof. intros H. unfold Py.get_or. by rewrite H. Qed.

Lemma has_key_some (d : gmap string pyval) (k : string) (v : pyval) :
  d !! k = Some v → Py.has_key d k = true.
Proof. intros H. unfold Py.has_key. by rewrite H. Qed.

Lemma has_key_none (d : gmap string pyval) (k : string) :
  d !! k = None → Py.has_key d k = false.
Proof. intros H. unfold Py.has_key. by rewrite H. Qed.

Lemma getitem_some (d : gmap string pyval) (k : string) (v : pyval) :
  d !! k = Some v → Py.getitem d k = Ok v.
Proof. intros H. unfold Py.getitem. by rewrite H. Qed.

Lemma getitem_none (d : gmap string pyval) (k : string) :
  d !! k = None → Py.getitem d k = Raise (KeyError k).
Proof. intros H. unfold Py.getitem. by rewrite H. Qed.

Lemma get_or_set_other (k k' : string) (v dflt : pyval)
    (doc : gmap string pyval) :
  k ≠ k' → Py.get_or ({[k := v]} ∪ doc) k' dflt = Py.get_or doc k' dflt.
Proof.
  intros Hk. unfold Py.get_or.
  rewrite lookup_union_r; [done|]. by rewrite lookup_singleton_ne.
Qed.

Lemma serialize_lookup (doc : gmap string pyval) (k : string) :
  Py.truthy_dict doc = true → k ∈ keys →
  _serialize (Some doc) !! k = Some (Py.get_or doc k (PStr "")).
Proof.
  intros Ht Hk. unfold _serialize. rewrite Ht.
  rewrite (foldl_insert_lookup (λ k, Py.get_or doc k (PStr ""))).
  by rewrite decide_True.
Qed.

Lemma serialize_truthy (doc : gmap string pyval) :
  Py.truthy_dict doc = true → Py.truthy_dict (_serialize (Some doc)) = true.
Proof.
  intros Ht. eapply (truthy_dict_lookup _ "id").
  apply serialize_lookup; [done|]. unfold keys. set_solver.
Qed.

Lemma serialize_get (doc : gmap string pyval) (k : string) :
  Py.truthy_dict doc = true → k ∈ keys →
  Py.get (_serialize (Some doc)) k = Py.get_or doc k (PStr "").
Proof. intros Ht Hk. unfold Py.get. by rewrite serialize_lookup. Qed.

Lemma py_eq_str (v : pyval) (s : string) :
  Py.eq v (PStr s) = true → v = PStr s.
Proof.
  destruct v; simpl; try done.
  intros H. apply String.eqb_eq in H. by subst.
Qed.

(** ** Addresses *)

Lemma normalize_idempotent (u : string) :
  normalize_daemon_url (normalize_daemon_url u) = normalize_daemon_url u.
Proof.
  unfold normalize_daemon_url.
  destruct (String.prefix "tcp://" u) eqn:Hp; cbn [negb]; [by rewrite Hp|].
  assert (String.prefix "tcp://" ("tcp://" +:+ u) = true) as ->
    by (by destruct u).
  done.
Qed.

Lemma contains_tail (p s : string) (a : Ascii.ascii) :
  contains p s = true → contains p (String a s) = true.
Proof. intros H. cbn [contains]. rewrite H. apply orb_true_r. Qed.

(** An address that starts with ["tcp://"] contains ["://"]. *)
Lemma prefix_tcp_contains (u : string) :
  String.prefix "tcp://" u = true → contains "://" u = true.
Proof.
  intros H.
  do 3 (destruct u as [|? u]; [done|]; cbn [String.prefix] in H;
        destruct (Ascii.ascii_dec _ _); [|done]).
  do 3 apply contains_tail.
  destruct u; cbn [contains]; by rewrite H.
Qed.

Lemma normalize_no_scheme (u : string) :
  contains "://" u = false → normalize_daemon_url u = "tcp://" +:+ u.
Proof.
  intros H. unfold normalize_daemon_url.
  destruct (String.prefix "tcp://" u) eqn:Hp; [|done].
  apply prefix_tcp_contains in Hp. congruence.
Qed.

(** ** Queries *)

Lemma match_field_present (doc : gmap string pyval) (k s : string) :
  Col.match_field doc (k, PStr s) = true → is_Some (doc !! k).
Proof.
  unfold Col.match_field. simpl. destruct (doc !! k); [eauto | done].
Qed.

Lemma matches_present (k s : string) (f : query) (doc : gmap string pyval) :
  Col.matches ((k, PStr s) :: f) doc = true → Py.truthy_dict doc = true.
Proof.
  unfold Col.matches. simpl. intros [H _]%andb_prop.
  apply match_field_present in H as [v Hv]. by eapply truthy_dict_lookup.
Qed.

Lemma lookup_matches (f : query) (ds : list (gmap string pyval))
    (doc : gmap string pyval) :
  Col.lookup f ds = Some doc → Col.matches f doc = true.
Proof. intros H. by apply List.find_some in H as [_ ?]. Qed.

Lemma by_id_truthy (id : string) (ds : list (gmap string pyval))
    (doc : gmap string pyval) :
  Col.lookup (by_id id) ds = Some doc → Py.truthy_dict doc = true.
Proof. intros H%lookup_matches. by apply matches_present in H. Qed.

Lemma truthy_lookup_by_url (url : string) (ds : list (gmap string pyval)) :
  truthy_doc (Col.lookup (by_url url) ds) =
  existsb (Col.matches (by_url url)) ds.
Proof.
  unfold Col.lookup.
  induction ds as [|d ds IH]; cbn [List.find existsb truthy_doc]; [done|].
  destruct (Col.matches (by_url url) d) eqn:Hm; cbn [truthy_doc orb]; [|done].
  by apply matches_present in Hm.
Qed.

Lemma existsb_modify (f f' : query)
    (g : gmap string pyval → gmap string pyval)
    (ds : list (gmap string pyval)) :
  (∀ d, Col.matches f (g d) = Col.matches f d) →
  existsb (Col.matches f) (Col.modify f' g ds) = existsb (Col.matches f) ds.
Proof.
  intros Hg. induction ds as [|d ds IH]; cbn [Col.modify existsb]; [done|].
  destruct (Col.matches f' d); cbn [existsb]; [by rewrite Hg | by rewrite IH].
Qed.

Lemma matches_by_url_set_id (url : string) (v : pyval)
    (doc : gmap string pyval) :
  Col.matches (by_url url) ({["id" := v]} ∪ doc) =
  Col.matches (by_url url) doc.
Proof.
  unfold Col.matches, by_url, Col.match_field. simpl.
  rewrite lookup_union_r; [done|]. by rewrite lookup_singleton_ne.
Qed.

Lemma matches_by_url_refl (url : string) (doc : gmap string pyval) :
  doc !! "daemon_url" = Some (PStr url) →
  Col.matches (by_url url) doc = true.
Proof.
  intros H. unfold Col.matches, by_url, Col.match_field. simpl.
  rewrite H. simpl. by rewrite String.eqb_refl.
Qed.

(** Deleting by a query takes out the first document that matches it and
    nothing else. *)
Lemma remove_first_match (f : query) (ds : list (gmap string pyval))
    (doc : gmap string pyval) :
  Col.lookup f ds = Some doc →
  ∃ before after,
    ds = before ++ doc :: after ∧
    Col.lookup f before = None ∧
    Col.remove f ds = before ++ after.
Proof.
  unfold Col.lookup. induction ds as [|d ds IH]; simpl; [done|].
  destruct (Col.matches f d) eqn:Hm.
  - intros [= ->]. by exists [], ds.
  - intros (before & after & -> & Hb & Hr)%IH.
    exists (d :: before), after. simpl. rewrite Hm, Hr. done.
Qed.

(** Once [create] has inserted a record with the address [url], a read by
    that address finds a document. *)
Lemma stored_after_insert (w : world) (h : gmap string pyval) (url : string) :
  h !! "daemon_url" = Some (PStr url) →
  truthy_doc (Col.lookup (by_url url) (docs_created w h)) = true.
Proof.
  intros Hu. rewrite truthy_lookup_by_url. unfold docs_created.
  rewrite existsb_modify by (intros d; apply matches_by_url_set_id).
  rewrite existsb_app. cbn [existsb].
  rewrite matches_by_url_refl by (by rewrite lookup_insert_ne).
  apply orb_true_r.
Qed.

(** The record inserted by [create] is the last document; apart from the
    ids it is the dict [h]. *)
Lemma docs_created_last (w : world) (h : gmap string pyval) :
  ∃ ds d,
    docs_created w h = ds ++ [d] ∧
    length ds = length (docs w) ∧
    ∀ k, k ≠ "id" → k ≠ "_id" → d !! k = h !! k.
Proof.
  unfold docs_created. generalize (docs w). intros ds.
  induction ds as [|x ds IH]; cbn [Col.modify app].
  - destruct (Col.matches _ _).
    + eexists [], _. split; [done|]. split; [done|]. intros k Hk Hk'.
      rewrite lookup_union_r by (by rewrite lookup_singleton_ne).
      by rewrite lookup_insert_ne.
    + eexists [], _. split; [done|]. split; [done|]. intros k Hk Hk'.
      by rewrite lookup_insert_ne.
  - destruct (Col.matches _ x).
    + eexists (_ :: ds), _. split; [done|]. split; [done|]. intros k Hk Hk'.
      by rewrite lookup_insert_ne.
    + destruct IH as (ds' & d & -> & Hlen & Hd).
      exists (x :: ds'), d. split; [done|]. split; [|done].
      cbn [length]. by rewrite Hlen.
Qed.

Lemma host_record_url (C : Common) (E : Env) (name : pyval) (u : string)
    (capacity : Z) (log_level log_type : pyval) (log_server : string)
    (schedulable : pyval) :
  host_record C E name u capacity log_level log_type log_server schedulable
    !! "daemon_url" = Some (PStr (normalize_daemon_url u)).
Proof. reflexivity. Qed.

Lemma host_record_schedulable (C : Common) (E : Env) (name : pyval)
    (u : string) (capacity : Z) (log_level log_type : pyval)
    (log_server : string) (schedulable : pyval) :
  host_record C E name u capacity log_level log_type log_server schedulable
    !! "schedulable" = Some schedulable.
Proof. reflexivity. Qed.

(** ** Rules of the program logic *)

Section Hoare.

Context {S : Type} (I : S → Prop).

Lemma bind_run {A B : Type} (m : M S A) (k : A → M S B) (s : S) :
  bind m k s =
  match m s with
  | (Ok a, s') => k a s'
  | (Raise e, s') => (Raise e, s')
  end.
Proof. reflexivity. Qed.

Lemma bind_assoc {A B D : Type} (m : M S A) (f : A → M S B)
    (g : B → M S D) (s : S) :
  bind (bind m f) g s = bind m (λ x, bind (f x) g) s.
Proof. rewrite !bind_run. by destruct (m s) as [[a|e] s']. Qed.

Lemma hoare_ret {A : Type} (a : A) (Q : res A → Prop) :
  Q (Ok a) → hoare I (ret a) Q.
Proof. by intros HQ s Hs. Qed.

Lemma hoare_lift {A : Type} (r : res A) (Q : res A → Prop) :
  Q r → hoare I (lift r) Q.
Proof. by intros HQ s Hs. Qed.

(** A sequence whose postcondition accepts every exception. *)
Lemma hoare_bind {A B : Type} (m : M S A) (k : A → M S B)
    (Q : res B → Prop) :
  (∀ e, Q (Raise e)) → preserves I m → (∀ a, hoare I (k a) Q) →
  hoare I (bind m k) Q.
Proof.
  intros HQ Hm Hk s Hs. rewrite bind_run.
  destruct (Hm s Hs) as [_ Hs']. destruct (m s) as [[a|e] s'].
  - by apply Hk.
  - split; [apply HQ | exact Hs'].
Qed.

Lemma preserves_ret {A : Type} (a : A) : preserves I (ret a).
Proof. by apply hoare_ret. Qed.

Lemma preserves_lift {A : Type} (r : res A) : preserves I (lift r).
Proof. by apply hoare_lift. Qed.

Lemma preserves_bind {A B : Type} (m : M S A) (k : A → M S B) :
  preserves I m → (∀ a, preserves I (k a)) → preserves I (bind m k).
Proof. intros Hm Hk. by apply hoare_bind. Qed.

Lemma preserves_when (c : bool) (body : M S unit) :
  preserves I body → preserves I (when c body).
Proof. intros H. destruct c; [done | apply preserves_ret]. Qed.

Lemma preserves_and_then (a b : M S bool) :
  preserves I a → preserves I b → preserves I (and_then a b).
Proof.
  intros Ha Hb. apply preserves_bind; [done|].
  intros []; [done | apply preserves_ret].
Qed.

Lemma preserves_for_each {A : Type} (xs : list A) (body : A → M S unit) :
  (∀ x, preserves I (body x)) → preserves I (for_each xs body).
Proof.
  intros Hb. induction xs as [|x xs IH]; cbn [for_each].
  - apply preserves_ret.
  - apply preserves_bind; [apply Hb | by intros _].
Qed.

Lemma run_preserved {A : Type} (m : M S A) (s : S) :
  preserves I m → I s → ∃ r s', m s = (r, s') ∧ I s'.
Proof.
  intros Hm Hs. destruct (Hm s Hs) as [_ H].
  destruct (m s) as [r s']. by exists r, s'.
Qed.

End Hoare.

#[export] Hint Resolve preserves_ret preserves_lift preserves_when
  preserves_and_then : preserve.
#[export] Hint Extern 2 (preserves _ (bind _ _)) =>
  apply preserves_bind; [| intros ?] : preserve.

(** The operations on the dict of [update]. *)
Section ArgRules.

Context (I : world * gmap string pyval → Prop).

Lemma preserves_has (k : string) : preserves I (Arg.has k).
Proof. by intros s Hs. Qed.

Lemma preserves_item (k : string) : preserves I (Arg.item k).
Proof. by intros s Hs. Qed.

Lemma preserves_this : preserves I Arg.this.
Proof. by intros s Hs. Qed.

End ArgRules.

#[export] Hint Resolve preserves_has preserves_item preserves_this : preserve.

Lemma in_state_setitem (w : world) (k : string) (v : pyval) :
  preserves (in_state w) (Arg.setitem k v).
Proof. by intros s Hs. Qed.

Lemma with_url_setitem (w : world) (url k : string) (v : pyval) :
  k ≠ "daemon_url" → preserves (with_url w url) (Arg.setitem k v).
Proof.
  intros Hk s [Hw Hu]. split; [done|]. split; [done|].
  cbn [Arg.setitem snd]. by rewrite lookup_insert_ne.
Qed.

#[export] Hint Resolve in_state_setitem : preserve.
#[export] Hint Extern 1 (preserves (with_url _ _) (Arg.setitem _ _)) =>
  apply with_url_setitem; discriminate : preserve.

(** What only reads the collection keeps every invariant of the world that
    one more event keeps. *)
Section WorldRules.

Context (I : world → Prop) (Hemit : ∀ e w, I w → I (emit e w)).

Lemma preserves_note (e : event) : preserves I (Col.note e).
Proof. intros w Hw. split; [done|]. by apply Hemit. Qed.

Lemma preserves_find_one (f : query) : preserves I (Col.find_one f).
Proof. intros w Hw. split; [done|]. by apply Hemit. Qed.

Lemma preserves_get_by_id (id : string) : preserves I (get_by_id id).
Proof.
  unfold get_by_id. apply preserves_bind; [apply preserves_find_one|].
  intros ins. destruct (negb (truthy_doc ins)); apply preserves_ret.
Qed.

Lemma preserves_is_active (id : string) : preserves I (is_active id).
Proof.
  unfold is_active. apply preserves_bind; [apply preserves_get_by_id|].
  intros host. destruct (negb (Py.truthy_dict host)); apply preserves_ret.
Qed.

Lemma preserves_check_status (func : string → M world pyval) (id : string) :
  preserves I (func id) → preserves I (check_status func id).
Proof.
  intros Hf. unfold check_status.
  apply preserves_bind; [apply preserves_is_active|].
  intros active. destruct (negb active); [apply preserves_ret | done].
Qed.

Lemma preserves_fillup (E : Env) (id : string) : preserves I (fillup E id).
Proof.
  apply preserves_check_status. unfold fillup_body.
  apply preserves_bind; [apply preserves_get_by_id | intros host].
  destruct (negb (Py.truthy_dict host)); [apply preserves_ret|].
  apply preserves_bind; [apply preserves_lift | intros n].
  apply preserves_bind; [apply preserves_lift | intros num_new].
  destruct (num_new <=? 0)%Z; [apply preserves_ret|].
  apply preserves_bind; [| intros free_ports].
  { unfold call_find_free_api_ports.
    apply preserves_bind; [apply preserves_note | intros _; apply preserves_ret]. }
  apply preserves_bind; [| intros _; apply preserves_ret].
  apply preserves_for_each. intros p.
  apply preserves_bind; [apply preserves_note | intros _; apply preserves_note].
Qed.

End WorldRules.

Lemma after_create_emit (E : Env) (w : world) (url : string)
    (h : gmap string pyval) (e : event) (w' : world) :
  after_create E w url h w' → after_create E w url h (emit e w').
Proof.
  intros (Hd & Hn & t & Ht). split; [done|]. split; [done|].
  exists (t ++ [e]). cbn [emit trace]. rewrite Ht. by rewrite <- !app_assoc.
Qed.

(** ** Reading a host *)

Ltac run :=
  cbn [bind ret raise lift fst snd emit
       Col.note Col.find_one Col.insert_one Col.find_one_and_update
       Col.delete_one docs next_oid trace negb].

(** one step after the other, as far as the outcome of each is known *)
Ltac mrun :=
  repeat first
    [ rewrite bind_run
    | progress cbn [lift ret negb fst snd Arg.has Arg.item Arg.setitem
                    Arg.this] ].

Lemma get_by_id_found (id : string) (w : world) (doc : gmap string pyval) :
  Col.lookup (by_id id) (docs w) = Some doc →
  get_by_id id w = (Ok (_serialize (Some doc)), emit (ColFindOne (by_id id)) w).
Proof.
  intros H. unfold get_by_id. run. fold (by_id id). rewrite H.
  cbn [truthy_doc]. by rewrite (by_id_truthy _ _ _ H).
Qed.

Lemma get_by_id_missing (id : string) (w : world) :
  Col.lookup (by_id id) (docs w) = None →
  get_by_id id w = (Ok ∅, emit (ColFindOne (by_id id)) w).
Proof. intros H. unfold get_by_id. run. fold (by_id id). by rewrite H. Qed.

Lemma get_by_id_world (id : string) (w : world) :
  ∃ h, get_by_id id w = (Ok h, emit (ColFindOne (by_id id)) w).
Proof.
  destruct (Col.lookup (by_id id) (docs w)) as [doc|] eqn:Hl.
  - eexists. by apply get_by_id_found.
  - eexists. by apply get_by_id_missing.
Qed.

Lemma is_active_found (id : string) (w : world) (doc : gmap string pyval) :
  Col.lookup (by_id id) (docs w) = Some doc →
  is_active id w =
  (Ok (Py.eq (Py.get_or doc "status" (PStr "")) (PStr "active")),
   emit (ColFindOne (by_id id)) w).
Proof.
  intros H. unfold is_active. rewrite bind_run.
  rewrite (get_by_id_found _ _ _ H).
  pose proof (by_id_truthy _ _ _ H) as Ht.
  rewrite (serialize_truthy _ Ht). cbn [negb].
  rewrite serialize_get; [done | done | unfold keys; set_solver].
Qed.

Lemma is_active_missing (id : string) (w : world) :
  Col.lookup (by_id id) (docs w) = None →
  is_active id w = (Ok false, emit (ColFindOne (by_id id)) w).
Proof.
  intros H. unfold is_active. rewrite bind_run.
  rewrite (get_by_id_missing _ _ H). by rewrite truthy_dict_empty.
Qed.

(** The gate is closed when no active host answers to [id]. *)
Lemma is_active_closed (id : string) (w : world) :
  (∀ doc, Col.lookup (by_id id) (docs w) = Some doc →
          doc !! "status" ≠ Some (PStr "active")) →
  is_active id w = (Ok false, emit (ColFindOne (by_id id)) w).
Proof.
  intros H. destruct (Col.lookup (by_id id) (docs w)) as [doc|] eqn:Hl.
  - rewrite (is_active_found _ _ _ Hl). f_equal. f_equal.
    destruct (Py.eq _ _) eqn:He; [|done].
    apply py_eq_str in He. exfalso. apply (H doc eq_refl).
    unfold Py.get_or in He. destruct (doc !! "status"); simpl in He; by subst.
  - by apply is_active_missing.
Qed.

Lemma is_active_open (id : string) (w : world) (doc : gmap string pyval) :
  Col.lookup (by_id id) (docs w) = Some doc →
  doc !! "status" = Some (PStr "active") →
  is_active id w = (Ok true, emit (ColFindOne (by_id id)) w).
Proof.
  intros Hl Hs. rewrite (is_active_found _ _ _ Hl).
  by rewrite (get_or_some _ _ _ _ Hs).
Qed.

Lemma check_status_closed (func : string → M world pyval) (id : string)
    (w : world) :
  (∀ doc, Col.lookup (by_id id) (docs w) = Some doc →
          doc !! "status" ≠ Some (PStr "active")) →
  check_status func id w = (Ok (PBool false), emit (ColFindOne (by_id id)) w).
Proof.
  intros H. unfold check_status. rewrite bind_run.
  by rewrite (is_active_closed _ _ H).
Qed.

Lemma check_status_open (func : string → M world pyval) (id : string)
    (w : world) (doc : gmap string pyval) :
  Col.lookup (by_id id) (docs w) = Some doc →
  doc !! "status" = Some (PStr "active") →
  check_status func id w = func id (emit (ColFindOne (by_id id)) w).
Proof.
  intros Hl Hs. unfold check_status. rewrite bind_run.
  by rewrite (is_active_open _ _ _ Hl Hs).
Qed.

(** ** Writes by id *)

Lemma db_set_by_id_run (id : string) (kwargs : gmap string pyval) (w : world) :
  db_set_by_id id [] kwargs w =
  (Ok (_serialize ((kwargs ∪.) <$> Col.lookup (by_id id) (docs w))),
   World (Col.modify (by_id id) (kwargs ∪.) (docs w)) (next_oid w)
         (trace w ++ [ColFindOneAndUpdate (by_id id) kwargs true])).
Proof. reflexivity. Qed.

Lemma for_each_delete_run (cids : list pyval) (w : world) :
  for_each cids (λ cid,
    Col.note (ThreadStart (ClusterDelete cid)) ;; Col.note (Sleep 200)) w =
  (Ok (), World (docs w) (next_oid w) (trace w ++ delete_dispatch cids)).
Proof.
  revert w. induction cids as [|cid cids IH]; intros w.
  - simpl. rewrite app_nil_r. by destruct w.
  - cbn [for_each]. rewrite bind_run. rewrite bind_run. cbn [Col.note].
    rewrite IH. cbn [emit docs next_oid trace delete_dispatch flat_map].
    by rewrite <- !app_assoc.
Qed.

(** ** The gate *)

(** C2, as stated, fails: gated on a host that does not exist, [fillup]
    returns [False] and has called the store, to read the host. *)
Lemma gated_call_reads_store :
  let out := fillup (ex_env true) "h1" ex_empty in
  out.1 = Ok (PBool false) ∧
  trace out.2 = [ColFindOne (by_id "h1")] ∧
  List.filter is_store_call (trace out.2) ≠ [].
Proof. vm_compute. by repeat split. Qed.

(** C2, as amended.  When no host answers to [id], or the one that does is
    not ["active"], [fillup], [clean] and [reset] return [False]; the
    documents are untouched, nothing is written, the provisioner is not
    called, and the only call on the store is the [find_one] by which the
    gate reads the host. *)
Theorem gated_inactive_no_effect (E : Env) (id : string) (w : world) :
  (∀ doc, Col.lookup (by_id id) (docs w) = Some doc →
          doc !! "status" ≠ Some (PStr "active")) →
  fillup E id w = (Ok (PBool false), emit (ColFindOne (by_id id)) w) ∧
  clean id w = (Ok (PBool false), emit (ColFindOne (by_id id)) w) ∧
  reset E id w = (Ok (PBool false), emit (ColFindOne (by_id id)) w).
Proof.
  intros H. unfold fillup, clean, reset.
  by rewrite !(check_status_closed _ _ _ H).
Qed.

(** C2 as amended, on an inactive host that has clusters. *)
Lemma gated_inactive_no_effect_witness :
  let w := ex_world "inactive" 2 [PStr "c1"] in
  fillup (ex_env true) "h1" w = (Ok (PBool false), emit (ColFindOne (by_id "h1")) w) ∧
  clean "h1" w = (Ok (PBool false), emit (ColFindOne (by_id "h1")) w) ∧
  reset (ex_env true) "h1" w = (Ok (PBool false), emit (ColFindOne (by_id "h1")) w).
Proof.
  apply (gated_inactive_no_effect (ex_env true) "h1"
           (ex_world "inactive" 2 [PStr "c1"])).
  intros doc H.
  assert (Col.lookup (by_id "h1") (docs (ex_world "inactive" 2 [PStr "c1"]))
          = Some (ex_host "inactive" 2 [PStr "c1"])) as Hl by reflexivity.
  rewrite Hl in H. injection H as <-.
  assert (ex_host "inactive" 2 [PStr "c1"] !! "status"
          = Some (PStr "inactive")) as -> by reflexivity.
  discriminate.
Defined.

(** ** Fillup *)

(** C6.  On an active host whose clusters are at least as many as its
    capacity, [fillup] returns [True] after two reads of the host (the gate
    and its own): no ports are requested, no thread is started, nothing is
    written. *)
Theorem fillup_full_host (E : Env) (id : string) (w : world)
    (doc : gmap string pyval) (c : Z) (cl : list pyval) :
  Col.lookup (by_id id) (docs w) = Some doc →
  doc !! "status" = Some (PStr "active") →
  doc !! "capacity" = Some (PInt c) →
  doc !! "clusters" = Some (PList cl) →
  (c ≤ Z.of_nat (length cl))%Z →
  fillup E id w =
  (Ok (PBool true),
   emit (ColFindOne (by_id id)) (emit (ColFindOne (by_id id)) w)).
Proof.
  intros Hl Hs Hc Hcl Hle. unfold fillup.
  rewrite (check_status_open _ _ _ _ Hl Hs).
  unfold fillup_body. rewrite bind_run.
  rewrite (get_by_id_found _ _ doc) by done.
  pose proof (by_id_truthy _ _ _ Hl) as Ht.
  rewrite (serialize_truthy _ Ht). cbn [negb].
  rewrite !serialize_get by (done || (unfold keys; set_solver)).
  rewrite (get_or_some _ _ _ _ Hc), (get_or_some _ _ _ _ Hcl).
  cbn [Py.len Py.sub Py.as_int]. mrun.
  destruct (Z.leb_spec (c - Z.of_nat (length cl)) 0); [done | lia].
Qed.

(** C6, on a host of capacity 2 with two clusters. *)
Lemma fillup_full_host_witness :
  let w := ex_world "active" 2 [PStr "c1"; PStr "c2"] in
  fillup (ex_env true) "h1" w =
  (Ok (PBool true),
   emit (ColFindOne (by_id "h1")) (emit (ColFindOne (by_id "h1")) w)).
Proof.
  apply (fillup_full_host (ex_env true) "h1"
           (ex_world "active" 2 [PStr "c1"; PStr "c2"])
           (ex_host "active" 2 [PStr "c1"; PStr "c2"]) 2
           [PStr "c1"; PStr "c2"]); first [reflexivity | simpl; lia].
Defined.

(** ** Clean *)

Lemma clean_no_clusters (id : string) (w : world) (doc : gmap string pyval) :
  Col.lookup (by_id id) (docs w) = Some doc →
  doc !! "status" = Some (PStr "active") →
  doc !! "clusters" = Some (PList []) →
  clean id w =
  (Ok (PBool true),
   emit (ColFindOne (by_id id)) (emit (ColFindOne (by_id id)) w)).
Proof.
  intros Hl Hs Hcl. unfold clean.
  rewrite (check_status_open _ _ _ _ Hl Hs).
  unfold clean_body. rewrite bind_run.
  rewrite (get_by_id_found _ _ doc) by done.
  rewrite (serialize_truthy _ (by_id_truthy _ _ _ Hl)). cbn [negb].
  rewrite !serialize_get
    by (by eapply by_id_truthy || (unfold keys; set_solver)).
  by rewrite (get_or_some _ _ _ _ Hcl).
Qed.

Lemma clean_with_clusters (id : string) (w : world)
    (doc : gmap string pyval) (cl : list pyval) :
  Col.lookup (by_id id) (docs w) = Some doc →
  doc !! "status" = Some (PStr "active") →
  doc !! "clusters" = Some (PList cl) →
  cl ≠ [] →
  clean id w =
  (Ok (PBool true),
   World
     (Col.modify (by_id id) ({["schedulable" := PBool true]} ∪.)
        (Col.modify (by_id id) ({["schedulable" := PBool false]} ∪.) (docs w)))
     (next_oid w)
     (trace w ++
      [ColFindOne (by_id id); ColFindOne (by_id id);
       ColFindOneAndUpdate (by_id id) {["schedulable" := PBool false]} true] ++
      delete_dispatch cl ++
      [ColFindOneAndUpdate (by_id id) {["schedulable" := PBool true]} true])).
Proof.
  intros Hl Hs Hcl Hne. unfold clean.
  pose proof (by_id_truthy _ _ _ Hl) as Ht.
  rewrite (check_status_open _ _ _ _ Hl Hs).
  unfold clean_body. rewrite bind_run.
  rewrite (get_by_id_found _ _ doc) by done.
  rewrite (serialize_truthy _ Ht). cbn [negb].
  rewrite !serialize_get by (done || (unfold keys; set_solver)).
  rewrite (get_or_some _ _ _ _ Hcl). cbn [Py.len]. rewrite bind_run.
  cbn [lift].
  destruct cl as [|cid cl]; [done|].
  destruct (Z.leb_spec (Z.of_nat (length (cid :: cl))) 0) as [Hle|_];
    [simpl in Hle; lia|].
  rewrite bind_run. rewrite db_set_by_id_run. cbn [docs emit].
  rewrite Hl. cbn [fmap option_fmap option_map].
  assert (Py.truthy_dict ({["schedulable" := PBool false]} ∪ doc) = true) as Ht'.
  { eapply (truthy_dict_lookup _ "schedulable").
    by rewrite lookup_union_l', lookup_singleton_eq. }
  rewrite serialize_get by (done || (unfold keys; set_solver)).
  rewrite get_or_set_other by done.
  rewrite (get_or_some _ _ _ _ Hcl). cbn [iter].
  rewrite bind_run. cbn [lift]. rewrite bind_run.
  rewrite for_each_delete_run. rewrite bind_run.
  rewrite db_set_by_id_run. unfold ret, emit. cbn [docs next_oid trace].
  do 2 f_equal. by rewrite <- !app_assoc.
Qed.

(** C7.  On an active host, [clean] with no clusters returns [True] after
    the two reads and writes nothing.  With clusters it writes
    [schedulable=False], starts one delete thread per cluster id in the
    order of the list, writes [schedulable=True] and returns [True]: the
    second write follows the last thread start, and nothing waits for a
    thread. *)
Theorem clean_active_host (id : string) (w : world)
    (doc : gmap string pyval) (cl : list pyval) :
  Col.lookup (by_id id) (docs w) = Some doc →
  doc !! "status" = Some (PStr "active") →
  doc !! "clusters" = Some (PList cl) →
  (cl = [] →
   clean id w =
   (Ok (PBool true),
    emit (ColFindOne (by_id id)) (emit (ColFindOne (by_id id)) w))) ∧
  (cl ≠ [] →
   clean id w =
   (Ok (PBool true),
    World
      (Col.modify (by_id id) ({["schedulable" := PBool true]} ∪.)
         (Col.modify (by_id id) ({["schedulable" := PBool false]} ∪.) (docs w)))
      (next_oid w)
      (trace w ++
       [ColFindOne (by_id id); ColFindOne (by_id id);
        ColFindOneAndUpdate (by_id id) {["schedulable" := PBool false]} true] ++
       delete_dispatch cl ++
       [ColFindOneAndUpdate (by_id id) {["schedulable" := PBool true]} true]))).
Proof.
  intros Hl Hs Hcl. split.
  - intros ->. by eapply clean_no_clusters.
  - intros Hne. by eapply clean_with_clusters.
Qed.

(** C7, on a host with the clusters ["c1"] and ["c2"]. *)
Lemma clean_active_host_witness :
  let w := ex_world "active" 2 [PStr "c1"; PStr "c2"] in
  clean "h1" w =
  (Ok (PBool true),
   World
     (Col.modify (by_id "h1") ({["schedulable" := PBool true]} ∪.)
        (Col.modify (by_id "h1") ({["schedulable" := PBool false]} ∪.) (docs w)))
     1
     ([ColFindOne (by_id "h1"); ColFindOne (by_id "h1");
       ColFindOneAndUpdate (by_id "h1") {["schedulable" := PBool false]} true;
       ThreadStart (ClusterDelete (PStr "c1")); Sleep 200;
       ThreadStart (ClusterDelete (PStr "c2")); Sleep 200;
       ColFindOneAndUpdate (by_id "h1") {["schedulable" := PBool true]} true])).
Proof.
  apply (clean_active_host "h1" (ex_world "active" 2 [PStr "c1"; PStr "c2"])
           (ex_host "active" 2 [PStr "c1"; PStr "c2"])
           [PStr "c1"; PStr "c2"]); try reflexivity.
  discriminate.
Defined.

(** ** Delete *)

(** C8.  [delete] returns [False] and leaves the documents as they are when
    no host answers to [id] or when the host has clusters.  When the host
    has an empty list of clusters it calls the daemon-side cleanup with the
    address of the host, then deletes the document (the first one that
    answers to [id], and no other), and returns [True]. *)
Theorem delete_host (id : string) (w : world) :
  (Col.lookup (by_id id) (docs w) = None →
   delete id w = (Ok false, emit (ColFindOne (by_id id)) w)) ∧
  (∀ doc c cl,
     Col.lookup (by_id id) (docs w) = Some doc →
     doc !! "clusters" = Some (PList (c :: cl)) →
     delete id w = (Ok false, emit (ColFindOne (by_id id)) w)) ∧
  (∀ doc,
     Col.lookup (by_id id) (docs w) = Some doc →
     doc !! "clusters" = Some (PList []) →
     delete id w =
     (Ok true,
      World (Col.remove (by_id id) (docs w)) (next_oid w)
            (trace w ++
             [ColFindOne (by_id id);
              CleanupContainerHost (Py.get_or doc "daemon_url" (PStr ""));
              ColDeleteOne (by_id id)])) ∧
     ∃ before after,
       docs w = before ++ doc :: after ∧
       Col.lookup (by_id id) before = None ∧
       Col.remove (by_id id) (docs w) = before ++ after).
Proof.
  split; [|split].
  - intros Hl. unfold delete. rewrite bind_run.
    rewrite (get_by_id_missing _ _ Hl). by rewrite truthy_dict_empty.
  - intros doc c cl Hl Hcl. unfold delete. rewrite bind_run.
    rewrite (get_by_id_found _ _ _ Hl).
    pose proof (by_id_truthy _ _ _ Hl) as Ht.
    rewrite (serialize_truthy _ Ht). cbn [negb].
    rewrite (get_or_some _ "clusters" (PList (c :: cl)));
      [done | rewrite serialize_lookup by (done || (unfold keys; set_solver))].
    by rewrite (get_or_some _ _ _ _ Hcl).
  - intros doc Hl Hcl. split; [|by apply remove_first_match].
    unfold delete. rewrite bind_run.
    rewrite (get_by_id_found _ _ _ Hl).
    pose proof (by_id_truthy _ _ _ Hl) as Ht.
    rewrite (serialize_truthy _ Ht). cbn [negb].
    rewrite (get_or_some _ "clusters" (PList []));
      [| rewrite serialize_lookup by (done || (unfold keys; set_solver));
         by rewrite (get_or_some _ _ _ _ Hcl)].
    cbn [Py.truthy].
    rewrite serialize_get by (done || (unfold keys; set_solver)).
    unfold call_cleanup_container_host. run.
    do 2 f_equal. by rewrite <- !app_assoc.
Qed.

(** C8, on an unknown id, on a host with a cluster and on one with none. *)
Lemma delete_host_witness :
  delete "h2" (ex_world "active" 2 []) =
  (Ok false, emit (ColFindOne (by_id "h2")) (ex_world "active" 2 [])) ∧
  delete "h1" (ex_world "active" 2 [PStr "c1"]) =
  (Ok false, emit (ColFindOne (by_id "h1")) (ex_world "active" 2 [PStr "c1"])) ∧
  delete "h1" (ex_world "active" 2 []) =
  (Ok true,
   World [] 1
     [ColFindOne (by_id "h1");
      CleanupContainerHost (PStr "tcp://10.0.0.1:2375");
      ColDeleteOne (by_id "h1")]).
Proof.
  split; [|split].
  - by apply (delete_host "h2" (ex_world "active" 2 [])).
  - by apply (proj1 (proj2 (delete_host "h1" (ex_world "active" 2 [PStr "c1"])))
               (ex_host "active" 2 [PStr "c1"]) (PStr "c1") []).
  - by apply (proj2 (proj2 (delete_host "h1" (ex_world "active" 2 [])))
               (ex_host "active" 2 [])).
Defined.

(** ** Update *)

Lemma update_unfold (C : Common) (int_of_str : string → option Z) (id : string)
    (s : world * gmap string pyval) :
  update C int_of_str id s =
  (let* h_old := Arg.in_world (get_by_id id) in
   if negb (Py.truthy_dict h_old) then ret ∅ else
   update_url ;; update_rest C int_of_str id h_old) s.
Proof.
  unfold update. rewrite !(bind_run (Arg.in_world _)).
  destruct (Arg.in_world (get_by_id id) s) as [[h|e] s1]; [|done].
  destruct (Py.truthy_dict h); [|done]. cbn [negb].
  unfold update_url. by rewrite bind_assoc.
Qed.

Lemma update_found (C : Common) (int_of_str : string → option Z) (id : string)
    (w : world) (d doc : gmap string pyval) :
  Col.lookup (by_id id) (docs w) = Some doc →
  update C int_of_str id (w, d) =
  (update_url ;; update_rest C int_of_str id (_serialize (Some doc)))
    (emit (ColFindOne (by_id id)) w, d).
Proof.
  intros Hl. rewrite update_unfold. rewrite bind_run.
  unfold Arg.in_world at 1. cbn [fst snd].
  rewrite (get_by_id_found _ _ _ Hl).
  by rewrite (serialize_truthy _ (by_id_truthy _ _ _ Hl)).
Qed.

Lemma update_url_absent (w : world) (d : gmap string pyval) :
  d !! "daemon_url" = None → update_url (w, d) = (Ok (), (w, d)).
Proof.
  intros H. unfold update_url, and_then, when. mrun.
  by rewrite (has_key_none _ _ H).
Qed.

Lemma update_url_str (w : world) (d : gmap string pyval) (u : string) :
  d !! "daemon_url" = Some (PStr u) →
  update_url (w, d) =
  (Ok (), (w, <["daemon_url" := PStr (normalize_daemon_url u)]> d)).
Proof.
  intros H. unfold update_url, and_then, when. mrun.
  rewrite (has_key_some _ _ _ H). mrun.
  rewrite (getitem_some _ _ _ H). cbn [Py.startswith].
  unfold normalize_daemon_url.
  destruct (String.prefix "tcp://" u); mrun.
  - by rewrite insert_id.
  - by rewrite (getitem_some _ _ _ H).
Qed.

Lemma update_url_world (w : world) : preserves (in_state w) update_url.
Proof. unfold update_url. eauto 10 with preserve. Qed.

(** The call [self.db_set_by_id(id, d)] that ends [update] passes [d] by
    position to a method that takes keywords only.  Whatever the state,
    [update_rest] returns the empty dict or raises, and leaves the world
    alone. *)
Lemma update_rest_no_record (C : Common) (int_of_str : string → option Z)
    (id : string) (h_old : gmap string pyval) (w : world) :
  hoare (in_state w) (update_rest C int_of_str id h_old)
        (λ r, returns_record r = false).
Proof.
  unfold update_rest.
  apply hoare_bind; [done | eauto with preserve | intros c].
  apply hoare_bind; [done | eauto 10 with preserve | intros _].
  apply hoare_bind; [done | eauto with preserve | intros v].
  apply hoare_bind; [done | eauto with preserve | intros n].
  apply hoare_bind; [done | eauto with preserve | intros small].
  destruct small; [apply hoare_ret, truthy_dict_empty|].
  apply hoare_bind; [done | eauto 10 with preserve | intros c1].
  apply hoare_bind; [done | eauto 10 with preserve | intros _].
  apply hoare_bind; [done | eauto 10 with preserve | intros c2].
  apply hoare_bind; [done | eauto with preserve | intros _].
  apply hoare_bind; [done | eauto with preserve | intros d].
  intros s Hs. split; [done | by destruct s].
Qed.

Lemma update_rest_keeps_url (C : Common) (int_of_str : string → option Z)
    (id : string) (h_old : gmap string pyval) (w : world) (url : string) :
  preserves (with_url w url) (update_rest C int_of_str id h_old).
Proof.
  unfold update_rest.
  apply preserves_bind; [eauto with preserve | intros c].
  apply preserves_bind; [eauto 10 with preserve | intros _].
  apply preserves_bind; [eauto with preserve | intros v].
  apply preserves_bind; [eauto with preserve | intros n].
  apply preserves_bind; [eauto with preserve | intros small].
  destruct small; [apply preserves_ret|].
  apply preserves_bind; [eauto 10 with preserve | intros c1].
  apply preserves_bind; [eauto 10 with preserve | intros _].
  apply preserves_bind; [eauto 10 with preserve | intros c2].
  apply preserves_bind; [eauto with preserve | intros _].
  apply preserves_bind; [eauto with preserve | intros d].
  intros s Hs. split; [done | by destruct s].
Qed.

(** [update] never returns a record and never writes: it returns the empty
    dict or raises, after the one read of the host. *)
Lemma update_never_returns_record (C : Common)
    (int_of_str : string → option Z) (id : string) (w : world)
    (d : gmap string pyval) :
  ∃ r d',
    update C int_of_str id (w, d) = (r, (emit (ColFindOne (by_id id)) w, d')) ∧
    returns_record r = false.
Proof.
  rewrite update_unfold. rewrite bind_run.
  unfold Arg.in_world at 1. cbn [fst snd].
  destruct (get_by_id_world id w) as [h ->].
  destruct (Py.truthy_dict h); cbn [negb];
    [|exists (Ok ∅), d; split; [reflexivity | apply truthy_dict_empty]].
  set (w' := emit (ColFindOne (by_id id)) w).
  assert (hoare (in_state w')
            (update_url ;; update_rest C int_of_str id h)
            (λ r, returns_record r = false)) as H.
  { apply hoare_bind; [done | apply update_url_world | intros _].
    apply update_rest_no_record. }
  destruct (H (w', d) eq_refl) as [HQ HI].
  destruct ((update_url ;; update_rest C int_of_str id h) (w', d))
    as [r [w'' d']].
  cbn [fst snd] in HQ, HI. unfold in_state in HI. cbn [fst] in HI. subst w''.
  by exists r, d'.
Qed.

(** The dict of [update] after the call holds the normalized address. *)
Lemma update_normalizes_url (C : Common) (int_of_str : string → option Z)
    (id : string) (w : world) (d doc : gmap string pyval) (u : string) :
  Col.lookup (by_id id) (docs w) = Some doc →
  d !! "daemon_url" = Some (PStr u) →
  (update C int_of_str id (w, d)).2.2 !! "daemon_url" =
  Some (PStr (normalize_daemon_url u)).
Proof.
  intros Hl Hu. rewrite (update_found _ _ _ _ _ _ Hl). rewrite bind_run.
  rewrite (update_url_str _ _ _ Hu).
  set (w' := emit (ColFindOne (by_id id)) w).
  set (d' := <["daemon_url" := PStr (normalize_daemon_url u)]> d).
  destruct (update_rest_keeps_url C int_of_str id (_serialize (Some doc)) w'
              (normalize_daemon_url u) (w', d')) as [_ [_ H]]; [|done].
  split; [done|]. apply lookup_insert_eq.
Qed.

(** C1.  The claim fails on the code.  For an existing host and a dict
    without ["capacity"], whose ["daemon_url"], if any, is a string, [update]
    raises [KeyError("capacity")]: line 147 reads [d["capacity"]] outside the
    test of line 145.  Nothing has been written. *)
Theorem update_without_capacity_raises (C : Common)
    (int_of_str : string → option Z) (id : string) (w : world)
    (d doc : gmap string pyval) :
  Col.lookup (by_id id) (docs w) = Some doc →
  d !! "capacity" = None →
  (d !! "daemon_url" = None ∨ ∃ u, d !! "daemon_url" = Some (PStr u)) →
  (update C int_of_str id (w, d)).1 = Raise (KeyError "capacity") ∧
  (update C int_of_str id (w, d)).2.1 = emit (ColFindOne (by_id id)) w.
Proof.
  intros Hl Hc Hu. rewrite (update_found _ _ _ _ _ _ Hl). rewrite bind_run.
  destruct Hu as [Hu|[u Hu]].
  - rewrite (update_url_absent _ _ Hu). unfold update_rest, when. mrun.
    rewrite (has_key_none _ _ Hc). mrun.
    by rewrite (getitem_none _ _ Hc).
  - rewrite (update_url_str _ _ _ Hu). unfold update_rest, when. mrun.
    assert (<["daemon_url" := PStr (normalize_daemon_url u)]> d !! "capacity"
            = None) as Hc' by (by rewrite lookup_insert_ne).
    rewrite (has_key_none _ _ Hc'). mrun.
    by rewrite (getitem_none _ _ Hc').
Qed.

(** C1, on a host renamed by [update(id, {"name": "host-b"})]. *)
Lemma update_without_capacity_raises_witness :
  let out := update ex_common ex_int_of_str "h1"
               (ex_world "active" 2 [], {["name" := PStr "host-b"]}) in
  out.1 = Raise (KeyError "capacity") ∧
  out.2.1 = emit (ColFindOne (by_id "h1")) (ex_world "active" 2 []).
Proof.
  apply (update_without_capacity_raises ex_common ex_int_of_str "h1"
           (ex_world "active" 2 []) {["name" := PStr "host-b"]}
           (ex_host "active" 2 [])).
  - reflexivity.
  - reflexivity.
  - left. reflexivity.
Defined.

(** C3.  For an existing host with clusters [cl] and an integer [c] below
    their number, [update(id, {"capacity": c})] returns the empty dict after
    the one read of the host: no write, and the documents, so the stored
    capacity, are as before.  Whenever the call on an existing host gets past
    the guard, that is, does anything but return the empty dict, [c] is at
    least the number of clusters. *)
Theorem update_capacity_guard (C : Common) (int_of_str : string → option Z)
    (id : string) (w : world) (doc : gmap string pyval) (cl : list pyval)
    (c : Z) :
  Col.lookup (by_id id) (docs w) = Some doc →
  doc !! "clusters" = Some (PList cl) →
  ((c < Z.of_nat (length cl))%Z →
   update C int_of_str id (w, {["capacity" := PInt c]}) =
   (Ok ∅, (emit (ColFindOne (by_id id)) w, {["capacity" := PInt c]}))) ∧
  ((update C int_of_str id (w, {["capacity" := PInt c]})).1 ≠ Ok ∅ →
   (Z.of_nat (length cl) ≤ c)%Z).
Proof.
  intros Hl Hcl.
  assert ((c < Z.of_nat (length cl))%Z →
    update C int_of_str id (w, {["capacity" := PInt c]}) =
    (Ok ∅, (emit (ColFindOne (by_id id)) w, {["capacity" := PInt c]}))) as H.
  { intros Hlt. rewrite (update_found _ _ _ _ _ _ Hl). rewrite bind_run.
    rewrite update_url_absent by done.
    unfold update_rest, when. mrun.
    rewrite (has_key_some _ _ (PInt c)) by apply lookup_singleton_eq.
    mrun.
    rewrite (getitem_some _ _ (PInt c)) by apply lookup_singleton_eq.
    cbn [Py.int]. mrun. rewrite insert_singleton_eq.
    rewrite (getitem_some _ _ (PInt c)) by apply lookup_singleton_eq.
    rewrite serialize_get
      by (by eapply by_id_truthy || (unfold keys; set_solver)).
    rewrite (get_or_some _ _ _ _ Hcl). cbn [Py.len Py.lt Py.as_int].
    mrun. by destruct (Z.ltb_spec c (Z.of_nat (length cl))); [|lia]. }
  split; [done|].
  intros Hne. destruct (Z.le_gt_cases (Z.of_nat (length cl)) c) as [|Hlt];
    [done|]. by rewrite (H Hlt) in Hne.
Qed.

(** C3, on a host with two clusters and [update(id, {"capacity": 1})]. *)
Lemma update_capacity_guard_witness :
  let w := ex_world "active" 2 [PStr "c1"; PStr "c2"] in
  update ex_common ex_int_of_str "h1" (w, {["capacity" := PInt 1]}) =
  (Ok ∅, (emit (ColFindOne (by_id "h1")) w, {["capacity" := PInt 1]})).
Proof.
  apply (update_capacity_guard ex_common ex_int_of_str "h1"
           (ex_world "active" 2 [PStr "c1"; PStr "c2"])
           (ex_host "active" 2 [PStr "c1"; PStr "c2"])
           [PStr "c1"; PStr "c2"] 1).
  - reflexivity.
  - reflexivity.
  - simpl. lia.
Defined.

(** ** Create *)

(** The three ways through [create]. *)
Section CreateRuns.

Context (C : Common) (E : Env).
Context (name : pyval) (u : string) (capacity : Z)
        (log_level log_type : pyval) (log_server : string)
        (fillup_flag : bool) (schedulable : pyval) (serialization : bool).

Local Abbreviation url := (normalize_daemon_url u).
Local Abbreviation h :=
  (host_record C E name u capacity log_level log_type log_server schedulable).
Local Abbreviation call :=
  (create C E name u capacity log_level log_type log_server fillup_flag
          schedulable serialization).

(** the address is already stored *)
Lemma create_duplicate (w : world) :
  truthy_doc (Col.lookup (by_url url) (docs w)) = true →
  call w = (Ok ∅, emit (ColFindOne (by_url url)) w).
Proof.
  intros H. unfold create. run. fold (by_url url). by rewrite H.
Qed.

(** the setup of the host fails *)
Lemma create_setup_failed (w : world) :
  truthy_doc (Col.lookup (by_url url) (docs w)) = false →
  setup_container_host E (detect_daemon_type E url) url = false →
  call w =
  (Ok ∅,
   World (docs w) (next_oid w)
         (trace w ++
          [ColFindOne (by_url url); CheckDaemon (PStr url);
           DetectDaemonType url;
           SetupContainerHost (detect_daemon_type E url) url])).
Proof.
  intros Hd Hs. unfold create. run. fold (by_url url). rewrite Hd.
  unfold call_check_daemon, call_detect_daemon_type,
    call_setup_container_host. run.
  rewrite Hs. cbn [negb]. unfold ret, emit. cbn [docs next_oid trace].
  by rewrite <- !app_assoc.
Qed.

(** the record is inserted; what follows only reads the collection *)
Lemma create_inserted (w : world) :
  truthy_doc (Col.lookup (by_url url) (docs w)) = false →
  setup_container_host E (detect_daemon_type E url) url = true →
  ∃ r t,
    call w =
    (r, World (docs_created w h) (N.succ (next_oid w))
              (trace w ++ create_calls E w url h ++ t)).
Proof.
  intros Hd Hs. unfold create. run. fold (by_url url). rewrite Hd.
  unfold call_check_daemon, call_detect_daemon_type,
    call_setup_container_host. run.
  rewrite Hs. cbn [negb]. unfold db_update_one. run.
  match goal with
  | |- ∃ r t, ?m ?W = _ =>
    destruct (run_preserved (after_create E w url h) m W)
      as (r & w' & Heq & Hd' & Hn & t & Ht)
  end.
  - apply preserves_bind; [| intros _; destruct serialization;
                              apply preserves_ret].
    apply preserves_when.
    apply preserves_bind; [| intros _; apply preserves_ret].
    apply preserves_fillup. intros e w'. apply after_create_emit.
  - split; [reflexivity|]. split; [reflexivity|]. exists [].
    unfold emit. cbn [docs next_oid trace]. rewrite app_nil_r.
    by rewrite <- !app_assoc.
  - exists r, t. rewrite Heq. destruct w' as [ds n tr].
    cbn [docs next_oid trace] in Hd', Hn, Ht. by subst.
Qed.

(** When [create] gets as far as the insertion, the collection ends with
    one more document, the last, which holds the fields of [h]. *)
Lemma create_persists (w : world) :
  truthy_doc (Col.lookup (by_url url) (docs w)) = false →
  setup_container_host E (detect_daemon_type E url) url = true →
  ∃ ds d,
    docs (call w).2 = ds ++ [d] ∧
    length ds = length (docs w) ∧
    ∀ k, k ≠ "id" → k ≠ "_id" → d !! k = h !! k.
Proof.
  intros Hd Hs. destruct (create_inserted w Hd Hs) as (r & t & ->).
  cbn [snd docs]. apply docs_created_last.
Qed.

(** C4.  When the setup of the host answers failure, [create] returns the
    empty dict; the documents and the next id are as before, and none of
    the calls it made on the way writes to the store. *)
Theorem create_setup_failure_persists_nothing (w : world) :
  setup_container_host E (detect_daemon_type E url) url = false →
  (call w).1 = Ok ∅ ∧
  docs (call w).2 = docs w ∧
  next_oid (call w).2 = next_oid w ∧
  ∃ t, trace (call w).2 = trace w ++ t ∧
       forallb (negb ∘ is_store_write) t = true.
Proof.
  intros Hs.
  destruct (truthy_doc (Col.lookup (by_url url) (docs w))) eqn:Hd.
  - rewrite (create_duplicate _ Hd). repeat split. by eexists [_].
  - rewrite (create_setup_failed _ Hd Hs). repeat split.
    by eexists [_; _; _; _].
Qed.

End CreateRuns.

(** *** When the first call succeeds *)

Lemma lookup_app_fresh (f : query) (ds : list (gmap string pyval))
    (x : gmap string pyval) :
  Col.lookup f ds = None → Col.matches f x = true →
  Col.lookup f (ds ++ [x]) = Some x.
Proof.
  unfold Col.lookup. intros Hn Hx.
  induction ds as [|d ds IH]; cbn [app List.find] in *; [by rewrite Hx|].
  destruct (Col.matches f d); [done | by apply IH].
Qed.

Lemma modify_app_fresh (f : query) (g : gmap string pyval → gmap string pyval)
    (ds : list (gmap string pyval)) (x : gmap string pyval) :
  Col.lookup f ds = None → Col.matches f x = true →
  Col.modify f g (ds ++ [x]) = ds ++ [g x].
Proof.
  unfold Col.lookup. intros Hn Hx.
  induction ds as [|d ds IH]; cbn [app List.find Col.modify] in *;
    [by rewrite Hx|].
  destruct (Col.matches f d); [done | by rewrite IH].
Qed.

Lemma for_each_create_run (ports : list Z) (w : world) :
  ∃ w', for_each ports (λ p,
          Col.note (ThreadStart (CreateClusterWork p)) ;;
          Col.note (Sleep 1000)) w = (Ok (), w').
Proof.
  revert w. induction ports as [|p ports IH]; intros w; [by eexists|].
  cbn [for_each]. rewrite !bind_run. cbn [Col.note]. apply IH.
Qed.

(** [fillup] on a host without clusters and with an integer capacity
    returns. *)
Lemma fillup_new_host_returns (E : Env) (id : string) (w : world)
    (doc : gmap string pyval) (c : Z) :
  Col.lookup (by_id id) (docs w) = Some doc →
  doc !! "capacity" = Some (PInt c) →
  doc !! "clusters" = Some (PList []) →
  ∃ v w', fillup E id w = (Ok v, w').
Proof.
  intros Hl Hc Hcl. unfold fillup, check_status. rewrite bind_run.
  rewrite (is_active_found _ _ _ Hl).
  destruct (Py.eq _ _); cbn [negb]; [|by eexists _, _].
  unfold fillup_body. rewrite bind_run.
  rewrite (get_by_id_found _ _ doc) by done.
  rewrite (serialize_truthy _ (by_id_truthy _ _ _ Hl)). cbn [negb].
  rewrite !serialize_get
    by (by eapply by_id_truthy || (unfold keys; set_solver)).
  rewrite (get_or_some _ _ _ _ Hc), (get_or_some _ _ _ _ Hcl).
  cbn [Py.len Py.sub Py.as_int]. mrun.
  destruct (_ <=? 0)%Z; [by eexists _, _|].
  unfold call_find_free_api_ports. rewrite !bind_run. cbn [Col.note ret].
  rewrite bind_run.
  match goal with
  | |- context [for_each ?ps _ ?W] =>
    destruct (for_each_create_run ps W) as [w' ->]
  end.
  by eexists _, _.
Qed.

(** [create] returns a record when the address is not stored yet, the setup
    of the host succeeds, and the id of the new document is not in use. *)
Lemma create_returns_record (C : Common) (E : Env) (name : pyval) (u : string)
    (capacity : Z) (log_level log_type : pyval) (log_server : string)
    (fillup_flag : bool) (schedulable : pyval) (serialization : bool)
    (w : world) :
  truthy_doc (Col.lookup (by_url (normalize_daemon_url u)) (docs w)) = false →
  setup_container_host E
    (detect_daemon_type E (normalize_daemon_url u))
    (normalize_daemon_url u) = true →
  Col.lookup (by_oid (next_oid w)) (docs w) = None →
  Col.lookup (by_id (oid_str (next_oid w))) (docs w) = None →
  returns_record
    (create C E name u capacity log_level log_type log_server fillup_flag
       schedulable serialization w).1 = true.
Proof.
  intros Hd Hs Hoid Hid.
  set (h := host_record C E name u capacity log_level log_type log_server
              schedulable).
  set (h' := <["_id" := POid (next_oid w)]> h).
  set (h'' := {["id" := PStr (oid_str (next_oid w))]} ∪ h').
  assert (Col.matches (by_oid (next_oid w)) h' = true) as Hm'.
  { unfold Col.matches, by_oid, Col.match_field, h'. simpl.
    rewrite lookup_insert_eq. simpl. by rewrite N.eqb_refl. }
  assert (Col.matches (by_id (oid_str (next_oid w))) h'' = true) as Hm''.
  { unfold Col.matches, by_id, Col.match_field, h''. simpl.
    rewrite lookup_union_l', lookup_singleton_eq
      by (by rewrite lookup_singleton_eq).
    simpl. by rewrite String.eqb_refl. }
  assert (Py.truthy_dict h'' = true) as Ht
    by (by eapply matches_present).
  unfold create. run. fold (by_url (normalize_daemon_url u)). rewrite Hd.
  unfold call_check_daemon, call_detect_daemon_type,
    call_setup_container_host. run.
  rewrite Hs. cbn [negb]. unfold db_update_one. run.
  fold (by_oid (next_oid w)).
  match goal with |- context [ColInsertOne ?x] => change x with h end.
  fold h'.
  rewrite (lookup_app_fresh _ _ _ Hoid Hm').
  rewrite (modify_app_fresh _ _ _ _ Hoid Hm').
  cbn [fmap option_fmap option_map]. fold h''.
  rewrite bind_run.
  assert (returns_record
            (if serialization
             then Ok (_serialize (Some (_serialize (Some h''))))
             else Ok (_serialize (Some h''))) = true) as Hret.
  { destruct serialization; cbn [returns_record];
      by rewrite ?serialize_truthy by (by rewrite ?serialize_truthy). }
  destruct ((0 <? capacity)%Z && fillup_flag); cbn [when].
  - rewrite !bind_run.
    match goal with
    | |- context [fillup E ?i ?W] =>
      destruct (fillup_new_host_returns E i W h'' capacity)
        as (v & w' & ->)
    end.
    + cbn [docs]. by apply lookup_app_fresh.
    + unfold h'', h'. rewrite lookup_union_r by done.
      by rewrite lookup_insert_ne.
    + unfold h'', h'. rewrite lookup_union_r by done.
      by rewrite lookup_insert_ne.
    + cbn [ret fst]. by destruct serialization.
  - cbn [ret fst]. by destruct serialization.
Qed.

(** C4, on a first host whose setup fails. *)
Lemma create_setup_failure_persists_nothing_witness :
  let out := create_default ex_common (ex_env false) (PStr "host-a")
               "10.0.0.1:2375" ex_empty in
  out.1 = Ok ∅ ∧
  docs out.2 = [] ∧
  next_oid out.2 = 0%N ∧
  ∃ t, trace out.2 = [] ++ t ∧ forallb (negb ∘ is_store_write) t = true.
Proof.
  apply (create_setup_failure_persists_nothing ex_common (ex_env false)
           (PStr "host-a") "10.0.0.1:2375" 1 (PStr "DEBUG") (PStr "local") ""
           false (PStr "false") true ex_empty).
  reflexivity.
Defined.




(** ** Normalization of the address *)



(** ** The field [schedulable] *)



(** ** The model at work *)

(** [create] with [capacity=2, fillup=True] on an empty store: after the
    insertion, the gate and [fillup] read the new host, two ports are asked
    for, and one thread per port is started. *)
Example create_then_fillup :
  let out := create ex_common (ex_env true) (PStr "host-a") "10.0.0.1:2375" 2
               (PStr "DEBUG") (PStr "local") "" true (PStr "false") true
               ex_empty in
  returns_record out.1 = true ∧
  skipn 6 (trace out.2) =
  [ColFindOne (by_id "0"); ColFindOne (by_id "0");
   FindFreeApiPorts "0" 2;
   ThreadStart (CreateClusterWork 7050); Sleep 1000;
   ThreadStart (CreateClusterWork 7150); Sleep 1000].
Proof. split; reflexivity. Qed.

(** [update] with a capacity that passes the guard: the call of line 154
    raises. *)
Example update_with_capacity_raises :
  (update ex_common ex_int_of_str "h1"
     (ex_world "active" 2 [PStr "c1"], {["capacity" := PInt 3]})).1 =
  Raise (TypeError "db_set_by_id() takes 2 positional arguments").
Proof. reflexivity. Qed.

(** [reset] on an active host without clusters hands back what the
    collaborator answers. *)
Example reset_active_host :
  let out := reset (ex_env true) "h1" (ex_world "active" 2 []) in
  out.1 = Ok (PBool true) ∧
  trace out.2 =
  [ColFindOne (by_id "h1"); ColFindOne (by_id "h1");
   ResetContainerHost (PStr "docker") (PStr "tcp://10.0.0.1:2375")].
Proof. split; reflexivity. Qed.

(** [fillup] on an active host with room for one more cluster. *)
Example fillup_one_more :
  let out := fillup (ex_env true) "h1" (ex_world "active" 2 [PStr "c1"]) in
  out.1 = Ok (PBool true) ∧
  trace out.2 =
  [ColFindOne (by_id "h1"); ColFindOne (by_id "h1");
   FindFreeApiPorts "h1" 1;
   ThreadStart (CreateClusterWork 7050); Sleep 1000].
Proof. split; reflexivity. Qed.

(** * Further properties of the handler *)

(** membership in [keys], by computation *)
Ltac in_keys := by apply (bool_decide_unpack _).

(** ** Serialization *)

Lemma serialize_lookup_all (doc : gmap string pyval) (k : string) :
  Py.truthy_dict doc = true →
  _serialize (Some doc) !! k =
  if decide (k ∈ keys) then Some (Py.get_or doc k (PStr "")) else None.
Proof.
  intros Ht. unfold _serialize. rewrite Ht.
  by rewrite (foldl_insert_lookup (λ k, Py.get_or doc k (PStr ""))).
Qed.

Lemma serialize_falsy (doc : gmap string pyval) :
  Py.truthy_dict doc = false → _serialize (Some doc) = ∅.
Proof. intros Ht. unfold _serialize. by rewrite Ht. Qed.

Lemma serialize_serialize (doc : option (gmap string pyval)) :
  _serialize (Some (_serialize doc)) = _serialize doc.
Proof.
  destruct doc as [doc|];
    [|apply serialize_falsy, truthy_dict_empty].
  destruct (Py.truthy_dict doc) eqn:Ht.
  - apply map_eq. intros k.
    rewrite !serialize_lookup_all by (done || by apply serialize_truthy).
    destruct (decide (k ∈ keys)) as [Hk|Hk]; [|done].
    unfold Py.get_or at 1. rewrite serialize_lookup_all by done.
    by rewrite decide_True.
  - rewrite (serialize_falsy _ Ht). apply serialize_falsy, truthy_dict_empty.
Qed.

(** A field written by [$set] shows in the serialized document, the others
    are as before. *)
Lemma serialize_set (doc : gmap string pyval) (k : string) (v : pyval) :
  Py.truthy_dict doc = true → k ∈ keys →
  _serialize (Some ({[k := v]} ∪ doc)) = <[k := v]> (_serialize (Some doc)).
Proof.
  intros Ht Hk.
  assert (Py.truthy_dict ({[k := v]} ∪ doc) = true) as Ht'.
  { eapply (truthy_dict_lookup _ k).
    by rewrite lookup_union_l', lookup_singleton_eq
      by (by rewrite lookup_singleton_eq). }
  apply map_eq. intros k'. rewrite serialize_lookup_all by done.
  destruct (decide (k = k')) as [<-|Hne].
  - rewrite lookup_insert_eq, decide_True by done. f_equal.
    apply get_or_some.
    by rewrite lookup_union_l', lookup_singleton_eq
      by (by rewrite lookup_singleton_eq).
  - rewrite lookup_insert_ne by done. rewrite serialize_lookup_all by done.
    destruct (decide (k' ∈ keys)); [|done]. by rewrite get_or_set_other.
Qed.

(** ** The store under a write *)

Lemma lookup_modify_same (f : query)
    (g : gmap string pyval → gmap string pyval)
    (ds : list (gmap string pyval)) :
  (∀ d, Col.matches f d = true → Col.matches f (g d) = true) →
  Col.lookup f (Col.modify f g ds) = g <$> Col.lookup f ds.
Proof.
  intros Hg. unfold Col.lookup.
  induction ds as [|x ds IH]; cbn [Col.modify List.find]; [done|].
  destruct (Col.matches f x) eqn:Hx; cbn [List.find].
  - by rewrite (Hg _ Hx).
  - by rewrite Hx.
Qed.

Lemma lookup_modify_other (f f' : query)
    (g : gmap string pyval → gmap string pyval)
    (ds : list (gmap string pyval)) (d : gmap string pyval) :
  (∀ x, Col.matches f (g x) = Col.matches f x) →
  Col.lookup f ds = Some d → Col.matches f' d = false →
  Col.lookup f (Col.modify f' g ds) = Some d.
Proof.
  intros Hg. unfold Col.lookup.
  induction ds as [|x ds IH]; cbn [Col.modify List.find]; [done|].
  intros Hl Hd. destruct (Col.matches f' x) eqn:Hx; cbn [List.find].
  - rewrite Hg. destruct (Col.matches f x); [|done]. congruence.
  - destruct (Col.matches f x); [done | by apply IH].
Qed.

Lemma lookup_remove_other (f f' : query) (ds : list (gmap string pyval))
    (d : gmap string pyval) :
  Col.lookup f ds = Some d → Col.matches f' d = false →
  Col.lookup f (Col.remove f' ds) = Some d.
Proof.
  unfold Col.lookup.
  induction ds as [|x ds IH]; cbn [Col.remove List.find]; [done|].
  intros Hl Hd. destruct (Col.matches f' x) eqn:Hx; cbn [List.find].
  - destruct (Col.matches f x); [congruence | done].
  - destruct (Col.matches f x); [done | by apply IH].
Qed.

Lemma lookup_none_filter (f : query) (ds : list (gmap string pyval)) :
  Col.lookup f ds = None ↔ List.filter (Col.matches f) ds = [].
Proof.
  unfold Col.lookup.
  induction ds as [|x ds IH]; cbn [List.find List.filter]; [done|].
  by destruct (Col.matches f x).
Qed.

Lemma lookup_head_filter (f : query) (ds : list (gmap string pyval)) :
  Col.lookup f ds = head (List.filter (Col.matches f) ds).
Proof.
  unfold Col.lookup.
  induction ds as [|x ds IH]; cbn [List.find List.filter]; [done|].
  by destruct (Col.matches f x).
Qed.

Lemma filter_remove (f : query) (ds : list (gmap string pyval)) :
  List.filter (Col.matches f) (Col.remove f ds) =
  tail (List.filter (Col.matches f) ds).
Proof.
  induction ds as [|x ds IH]; cbn [Col.remove List.filter]; [done|].
  destruct (Col.matches f x) eqn:Hx; [done|].
  cbn [List.filter]. by rewrite Hx.
Qed.

Lemma matches_by_id_set (id k : string) (v : pyval)
    (doc : gmap string pyval) :
  k ≠ "id" →
  Col.matches (by_id id) ({[k := v]} ∪ doc) = Col.matches (by_id id) doc.
Proof.
  intros Hk. unfold Col.matches, by_id, Col.match_field. simpl.
  rewrite lookup_union_r; [done|]. by rewrite lookup_singleton_ne.
Qed.

Lemma matches_by_id_str (id id' : string) (doc : gmap string pyval) :
  doc !! "id" = Some (PStr id') →
  Col.matches (by_id id) doc = String.eqb id id'.
Proof.
  intros H. unfold Col.matches, by_id, Col.match_field. simpl.
  rewrite H. simpl. by rewrite orb_false_r, andb_true_r.
Qed.

Lemma matches_by_id_union (id : string) (kwargs doc : gmap string pyval) :
  kwargs !! "id" = None →
  Col.matches (by_id id) (kwargs ∪ doc) = Col.matches (by_id id) doc.
Proof.
  intros Hk. unfold Col.matches, by_id, Col.match_field. simpl.
  by rewrite lookup_union_r.
Qed.

Lemma length_modify (f : query) (g : gmap string pyval → gmap string pyval)
    (ds : list (gmap string pyval)) :
  length (Col.modify f g ds) = length ds.
Proof.
  induction ds as [|x ds IH]; cbn [Col.modify]; [done|].
  destruct (Col.matches f x); cbn [length]; by rewrite ?IH.
Qed.

Lemma modify_none (f : query) (g : gmap string pyval → gmap string pyval)
    (ds : list (gmap string pyval)) :
  Col.lookup f ds = None → Col.modify f g ds = ds.
Proof.
  unfold Col.lookup.
  induction ds as [|x ds IH]; cbn [Col.modify List.find]; [done|].
  destruct (Col.matches f x); [done|]. intros H. by rewrite IH.
Qed.

Lemma matches_app (f f' : query) (doc : gmap string pyval) :
  Col.matches (f ++ f') doc = Col.matches f doc && Col.matches f' doc.
Proof. unfold Col.matches. apply forallb_app. Qed.

(** A query with more fields finds the same document when that document
    answers to the added fields too. *)
Lemma lookup_refine (f f' : query) (ds : list (gmap string pyval))
    (d : gmap string pyval) :
  Col.lookup f ds = Some d → Col.matches f' d = true →
  Col.lookup (f ++ f') ds = Some d.
Proof.
  unfold Col.lookup.
  induction ds as [|x ds IH]; cbn [List.find]; [done|].
  intros Hl Hd. rewrite matches_app.
  destruct (Col.matches f x); cbn [andb].
  - injection Hl as ->. by rewrite Hd.
  - by apply IH.
Qed.

Lemma lookup_refine_none (f f' : query) (ds : list (gmap string pyval)) :
  Col.lookup f ds = None → Col.lookup (f ++ f') ds = None.
Proof.
  unfold Col.lookup.
  induction ds as [|x ds IH]; cbn [List.find]; [done|].
  rewrite matches_app. destruct (Col.matches f x); cbn [andb]; [done|].
  apply IH.
Qed.

Lemma matches_status_active (doc : gmap string pyval) :
  doc !! "status" = Some (PStr "active") →
  Col.matches [("status", PStr "active")] doc = true.
Proof.
  intros H. unfold Col.matches, Col.match_field. simpl. by rewrite H.
Qed.

(** What [is_active] answers [True] for. *)
Lemma is_active_true (id : string) (w : world) :
  (is_active id w).1 = Ok true →
  ∃ doc, Col.lookup (by_id id) (docs w) = Some doc ∧
         doc !! "status" = Some (PStr "active").
Proof.
  destruct (Col.lookup (by_id id) (docs w)) as [doc|] eqn:Hl.
  - rewrite (is_active_found _ _ _ Hl). cbn [fst]. intros [= He].
    exists doc. split; [done|]. apply py_eq_str in He.
    unfold Py.get_or in He. destruct (doc !! "status"); simpl in He; by subst.
  - by rewrite (is_active_missing _ _ Hl).
Qed.

Lemma get_active_host_by_id_run (id : string) (w : world) :
  get_active_host_by_id id w =
  (Ok (_serialize (Col.lookup (by_active_id id) (docs w))),
   emit (ColFindOne (by_active_id id)) w).
Proof.
  unfold get_active_host_by_id. run. fold (by_active_id id).
  destruct (Col.lookup (by_active_id id) (docs w)) as [doc|] eqn:Hl;
    cbn [truthy_doc]; [|done].
  destruct (Py.truthy_dict doc) eqn:Ht; cbn [negb]; [done|].
  by rewrite (serialize_falsy _ Ht).
Qed.

Lemma head_map {A B : Type} (f : A → B) (l : list A) :
  head (f <$> l) = f <$> head l.
Proof. by destruct l. Qed.

Lemma keys_NoDup : NoDup keys.
Proof. by apply (bool_decide_unpack _). Qed.

(** X1.  A document that is not empty serializes to a dict with exactly the
    twelve keys of the handler: each holds the field of the document, or the
    empty string when the document has no such field; every other field of
    the document, the ["_id"] of the store among them, is left out.  An empty
    document, like no document, serializes to the empty dict. *)
Theorem serialize_exposes_the_twelve_keys (doc : gmap string pyval) :
  (Py.truthy_dict doc = true →
   (∀ k, k ∈ keys →
         _serialize (Some doc) !! k = Some (Py.get_or doc k (PStr ""))) ∧
   (∀ k, k ∉ keys → _serialize (Some doc) !! k = None) ∧
   _serialize (Some doc) !! "_id" = None ∧
   size (_serialize (Some doc)) = 12) ∧
  (Py.truthy_dict doc = false → _serialize (Some doc) = ∅) ∧
  _serialize None = ∅.
Proof.
  split; [|split; [apply serialize_falsy | done]].
  intros Ht.
  assert (∀ k, k ∉ keys → _serialize (Some doc) !! k = None) as Hout.
  { intros k Hk. rewrite serialize_lookup_all by done.
    by rewrite decide_False. }
  split; [intros k Hk; by apply serialize_lookup|].
  split; [done|].
  split; [apply Hout; by apply (bool_decide_unpack _)|].
  rewrite <- size_dom.
  assert (dom (_serialize (Some doc)) = list_to_set (C := gset string) keys)
    as ->.
  { apply set_eq. intros k. rewrite elem_of_dom, elem_of_list_to_set.
    rewrite serialize_lookup_all by done.
    destruct (decide (k ∈ keys)) as [Hk|Hk].
    - split; [done | by eexists].
    - split; [by intros [? ?] | done]. }
  rewrite size_list_to_set by apply keys_NoDup. done.
Qed.

(** X1, on the stored example host, which has thirteen fields. *)
Lemma serialize_exposes_the_twelve_keys_witness :
  _serialize (Some (ex_host "active" 2 [])) !! "_id" = None ∧
  size (_serialize (Some (ex_host "active" 2 []))) = 12.
Proof.
  destruct (proj1 (serialize_exposes_the_twelve_keys (ex_host "active" 2 [])))
    as (_ & _ & Hid & Hsize); [reflexivity|].
  split; [exact Hid | exact Hsize].
Defined.

(** X2.  Serializing twice is serializing once: a serialized host is a
    fixed point of [_serialize]. *)
Theorem serialize_idempotent (doc : option (gmap string pyval)) :
  _serialize (Some (_serialize doc)) = _serialize doc.
Proof. apply serialize_serialize. Qed.

(** ** Reading hosts *)

(** X3.  [get_by_id] returns the first host that [list] returns for the
    filter [{"id": id}], and the empty dict when that list is empty; [list]
    leaves the world as it is. *)
Theorem get_by_id_is_first_listed (id : string) (w : world) :
  ∃ l, list_hosts (by_id id) w = (Ok l, w) ∧
       (get_by_id id w).1 = Ok (default ∅ (head l)).
Proof.
  eexists. split; [reflexivity|].
  rewrite head_map, <- lookup_head_filter.
  destruct (Col.lookup (by_id id) (docs w)) as [doc|] eqn:Hl.
  - by rewrite (get_by_id_found _ _ _ Hl).
  - by rewrite (get_by_id_missing _ _ Hl).
Qed.

(** X4.  [get_active_host_by_id] makes one read, by id and status, and
    writes nothing: in particular it does not set a host inactive.  Whenever
    [is_active] answers [True] for [id], it returns the record that
    [get_by_id] returns, which is not empty. *)
Theorem get_active_host_by_id_agrees (id : string) (w : world) :
  (get_active_host_by_id id w).2 = emit (ColFindOne (by_active_id id)) w ∧
  ((is_active id w).1 = Ok true →
   (get_active_host_by_id id w).1 = (get_by_id id w).1 ∧
   returns_record (get_by_id id w).1 = true).
Proof.
  rewrite get_active_host_by_id_run. split; [done|].
  intros (doc & Hl & Hs)%is_active_true.
  rewrite (get_by_id_found _ _ _ Hl). cbn [fst returns_record].
  split; [|by apply serialize_truthy, (by_id_truthy _ _ _ Hl)].
  change (by_active_id id) with (by_id id ++ [("status", PStr "active")]).
  by rewrite (lookup_refine _ _ _ _ Hl (matches_status_active _ Hs)).
Qed.

(** X4, on the active example host. *)
Lemma get_active_host_by_id_agrees_witness :
  let w := ex_world "active" 2 [] in
  (get_active_host_by_id "h1" w).1 = (get_by_id "h1" w).1 ∧
  returns_record (get_by_id "h1" w).1 = true.
Proof.
  apply (proj2 (get_active_host_by_id_agrees "h1" (ex_world "active" 2 []))).
  reflexivity.
Defined.

(** ** Writes by id *)



(** ** Refreshing the status *)

Lemma refresh_status_found (E : Env) (id : string) (w : world)
    (doc : gmap string pyval) :
  Col.lookup (by_id id) (docs w) = Some doc →
  refresh_status E id w =
  (let url := Py.get_or doc "daemon_url" (PStr "") in
   let s := if check_daemon E url then "active" else "inactive" in
   (Ok (<["status" := PStr s]> (_serialize (Some doc))),
    World (Col.modify (by_id id) ({["status" := PStr s]} ∪.) (docs w))
          (next_oid w)
          (trace w ++
           [ColFindOne (by_id id); CheckDaemon url;
            ColFindOneAndUpdate (by_id id) {["status" := PStr s]} true]))).
Proof.
  intros Hl. pose proof (by_id_truthy _ _ _ Hl) as Ht.
  unfold refresh_status. rewrite bind_run.
  rewrite (get_by_id_found _ _ _ Hl).
  rewrite (serialize_truthy _ Ht). cbn [negb].
  rewrite serialize_get by (done || (unfold keys; set_solver)).
  unfold call_check_daemon. rewrite !bind_run. cbn [Col.note ret].
  cbv zeta.
  destruct (check_daemon E _); cbn [negb]; rewrite db_set_by_id_run;
    cbn [docs next_oid trace emit]; rewrite Hl;
    cbn [fmap option_fmap option_map];
    rewrite serialize_set by (done || (unfold keys; set_solver));
    by rewrite <- !app_assoc.
Qed.

(** X6.  On a stored host [refresh_status] probes the daemon at the stored
    address, once, and writes ["active"] or ["inactive"] to the status of
    that host according to the answer; it returns the record of the host
    with the new status, every other field as it was. *)
Theorem refresh_status_writes_probe_result (E : Env) (id : string)
    (w : world) (doc : gmap string pyval) :
  Col.lookup (by_id id) (docs w) = Some doc →
  refresh_status E id w =
  (let url := Py.get_or doc "daemon_url" (PStr "") in
   let s := if check_daemon E url then "active" else "inactive" in
   (Ok (<["status" := PStr s]> (_serialize (Some doc))),
    World (Col.modify (by_id id) ({["status" := PStr s]} ∪.) (docs w))
          (next_oid w)
          (trace w ++
           [ColFindOne (by_id id); CheckDaemon url;
            ColFindOneAndUpdate (by_id id) {["status" := PStr s]} true]))).
Proof. apply refresh_status_found. Qed.

(** X6, on the example host stored as inactive, with a daemon that
    answers. *)
Lemma refresh_status_writes_probe_result_witness :
  (refresh_status (ex_env true) "h1" (ex_world "inactive" 2 [])).1 =
  Ok (<["status" := PStr "active"]>
        (_serialize (Some (ex_host "inactive" 2 [])))).
Proof.
  rewrite (refresh_status_writes_probe_result (ex_env true) "h1"
             (ex_world "inactive" 2 []) (ex_host "inactive" 2 []));
    reflexivity.
Defined.

Lemma lookup_after_set (id k : string) (v : pyval)
    (ds : list (gmap string pyval)) (doc : gmap string pyval) :
  k ≠ "id" → Col.lookup (by_id id) ds = Some doc →
  Col.lookup (by_id id) (Col.modify (by_id id) ({[k := v]} ∪.) ds) =
  Some ({[k := v]} ∪ doc).
Proof.
  intros Hk Hl. rewrite lookup_modify_same, Hl; [done|].
  intros d Hd. by rewrite matches_by_id_set.
Qed.

(** X7.  After [refresh_status] on a stored host, [is_active] answers what
    the probe of the daemon answered.  When the probe failed, the gated
    methods refuse the host. *)
Theorem refresh_status_then_is_active (E E' : Env) (id : string) (w : world)
    (doc : gmap string pyval) :
  Col.lookup (by_id id) (docs w) = Some doc →
  (is_active id (refresh_status E id w).2).1 =
    Ok (check_daemon E (Py.get_or doc "daemon_url" (PStr ""))) ∧
  (check_daemon E (Py.get_or doc "daemon_url" (PStr "")) = false →
   (fillup E' id (refresh_status E id w).2).1 = Ok (PBool false) ∧
   (clean id (refresh_status E id w).2).1 = Ok (PBool false) ∧
   (reset E' id (refresh_status E id w).2).1 = Ok (PBool false)).
Proof.
  intros Hl. rewrite (refresh_status_found _ _ _ _ Hl). cbv zeta. cbn [snd].
  set (s := if check_daemon E _ then "active" else "inactive").
  set (w' := World _ _ _).
  assert (Col.lookup (by_id id) (docs w') = Some ({["status" := PStr s]} ∪ doc))
    as Hl' by (by apply lookup_after_set).
  assert (({["status" := PStr s]} ∪ doc) !! "status" = Some (PStr s)) as Hs.
  { by rewrite lookup_union_l', lookup_singleton_eq
      by (by rewrite lookup_singleton_eq). }
  split.
  - rewrite (is_active_found _ _ _ Hl'). cbn [fst].
    rewrite (get_or_some _ _ _ _ Hs). unfold s.
    by destruct (check_daemon E _).
  - intros Hdead. unfold fillup, clean, reset.
    rewrite !(check_status_closed _ id w'); [done | | |];
      intros d Hd; rewrite Hl' in Hd; injection Hd as <-;
      rewrite Hs; unfold s; rewrite Hdead; discriminate.
Qed.

(** X7, on the example host stored as inactive, with a daemon that
    answers. *)
Lemma refresh_status_then_is_active_witness :
  (is_active "h1"
     (refresh_status (ex_env true) "h1" (ex_world "inactive" 2 [])).2).1 =
  Ok true.
Proof.
  apply (refresh_status_then_is_active (ex_env true) (ex_env true) "h1"
           (ex_world "inactive" 2 []) (ex_host "inactive" 2 [])).
  reflexivity.
Defined.

(** ** The gated methods on an active host *)

Lemma for_each_create_dispatch (ports : list Z) (w : world) :
  for_each ports (λ p,
    Col.note (ThreadStart (CreateClusterWork p)) ;; Col.note (Sleep 1000)) w =
  (Ok (), World (docs w) (next_oid w) (trace w ++ create_dispatch ports)).
Proof.
  revert w. induction ports as [|p ports IH]; intros w.
  - simpl. rewrite app_nil_r. by destruct w.
  - cbn [for_each]. rewrite bind_run. rewrite bind_run. cbn [Col.note].
    rewrite IH. cbn [emit docs next_oid trace create_dispatch flat_map].
    by rewrite <- !app_assoc.
Qed.

Lemma fillup_with_room (E : Env) (id : string) (w : world)
    (doc : gmap string pyval) (c : Z) (cl : list pyval) :
  Col.lookup (by_id id) (docs w) = Some doc →
  doc !! "status" = Some (PStr "active") →
  doc !! "capacity" = Some (PInt c) →
  doc !! "clusters" = Some (PList cl) →
  (Z.of_nat (length cl) < c)%Z →
  fillup E id w =
  (let n := (c - Z.of_nat (length cl))%Z in
   (Ok (PBool true),
    World (docs w) (next_oid w)
      (trace w ++
       [ColFindOne (by_id id); ColFindOne (by_id id); FindFreeApiPorts id n] ++
       create_dispatch (find_free_api_ports E id n)))).
Proof.
  intros Hl Hs Hc Hcl Hlt. unfold fillup.
  rewrite (check_status_open _ _ _ _ Hl Hs).
  unfold fillup_body. rewrite bind_run.
  rewrite (get_by_id_found _ _ doc) by done.
  pose proof (by_id_truthy _ _ _ Hl) as Ht.
  rewrite (serialize_truthy _ Ht). cbn [negb].
  rewrite !serialize_get by (done || (unfold keys; set_solver)).
  rewrite (get_or_some _ _ _ _ Hc), (get_or_some _ _ _ _ Hcl).
  cbn [Py.len Py.sub Py.as_int]. mrun.
  destruct (Z.leb_spec (c - Z.of_nat (length cl)) 0); [lia|].
  unfold call_find_free_api_ports. rewrite !bind_run. cbn [Col.note ret].
  rewrite bind_run. rewrite for_each_create_dispatch.
  cbv zeta. cbn [emit docs next_oid trace]. by rewrite <- !app_assoc.
Qed.

(** X8.  On an active host with fewer clusters than its capacity, [fillup]
    asks the cluster handler for as many free ports as clusters are missing,
    starts one thread per port it is given, in the order given and one second
    apart, and returns [True]; it writes nothing to the store. *)
Theorem fillup_one_thread_per_port (E : Env) (id : string) (w : world)
    (doc : gmap string pyval) (c : Z) (cl : list pyval) :
  Col.lookup (by_id id) (docs w) = Some doc →
  doc !! "status" = Some (PStr "active") →
  doc !! "capacity" = Some (PInt c) →
  doc !! "clusters" = Some (PList cl) →
  (Z.of_nat (length cl) < c)%Z →
  fillup E id w =
  (let n := (c - Z.of_nat (length cl))%Z in
   (Ok (PBool true),
    World (docs w) (next_oid w)
      (trace w ++
       [ColFindOne (by_id id); ColFindOne (by_id id); FindFreeApiPorts id n] ++
       create_dispatch (find_free_api_ports E id n)))).
Proof. apply fillup_with_room. Qed.

(** X8, on a host of capacity 3 with one cluster. *)
Lemma fillup_one_thread_per_port_witness :
  fillup (ex_env true) "h1" (ex_world "active" 3 [PStr "c1"]) =
  (Ok (PBool true),
   World [ex_host "active" 3 [PStr "c1"]] 1
     [ColFindOne (by_id "h1"); ColFindOne (by_id "h1");
      FindFreeApiPorts "h1" 2;
      ThreadStart (CreateClusterWork 7050); Sleep 1000;
      ThreadStart (CreateClusterWork 7150); Sleep 1000]).
Proof.
  apply (fillup_one_thread_per_port (ex_env true) "h1"
           (ex_world "active" 3 [PStr "c1"]) (ex_host "active" 3 [PStr "c1"])
           3 [PStr "c1"]); first [reflexivity | simpl; lia].
Defined.

(** X9.  On an active host whose stored capacity is not a number — the
    field is missing, or holds a string — [fillup] raises [TypeError] at the
    subtraction of line 197, after the two reads: no port is asked for and no
    thread is started. *)
Theorem fillup_capacity_not_a_number (E : Env) (id : string) (w : world)
    (doc : gmap string pyval) (cl : list pyval) :
  Col.lookup (by_id id) (docs w) = Some doc →
  doc !! "status" = Some (PStr "active") →
  doc !! "clusters" = Some (PList cl) →
  (doc !! "capacity" = None ∨ ∃ s, doc !! "capacity" = Some (PStr s)) →
  ∃ msg,
    fillup E id w =
    (Raise (TypeError msg),
     emit (ColFindOne (by_id id)) (emit (ColFindOne (by_id id)) w)).
Proof.
  intros Hl Hs Hcl Hc. unfold fillup.
  rewrite (check_status_open _ _ _ _ Hl Hs).
  unfold fillup_body. rewrite bind_run.
  rewrite (get_by_id_found _ _ doc) by done.
  pose proof (by_id_truthy _ _ _ Hl) as Ht.
  rewrite (serialize_truthy _ Ht). cbn [negb].
  rewrite !serialize_get by (done || in_keys).
  rewrite (get_or_some _ _ _ _ Hcl). cbn [Py.len]. mrun.
  assert (∃ s, Py.get_or doc "capacity" (PStr "") = PStr s) as [s ->].
  { unfold Py.get_or. destruct Hc as [->|[s ->]]; by eexists. }
  cbn [Py.sub Py.as_int]. by eexists.
Qed.

(** X9, on a host whose capacity was stored as the string ["2"]. *)
Lemma fillup_capacity_not_a_number_witness :
  let w := World [<["capacity" := PStr "2"]> (ex_host "active" 2 [])] 1 [] in
  ∃ msg,
    fillup (ex_env true) "h1" w =
    (Raise (TypeError msg),
     emit (ColFindOne (by_id "h1")) (emit (ColFindOne (by_id "h1")) w)).
Proof.
  apply (fillup_capacity_not_a_number (ex_env true) "h1"
           (World [<["capacity" := PStr "2"]> (ex_host "active" 2 [])] 1 [])
           (<["capacity" := PStr "2"]> (ex_host "active" 2 [])) []);
    first [reflexivity | right; eexists; reflexivity].
Defined.

(** X10.  On an active host without clusters [reset] calls the reset of the
    container host with the stored type and address and hands back its
    answer, whatever it is; on an active host with clusters it returns
    [False] and calls nothing.  Either way the store is only read, twice. *)
Theorem reset_by_clusters (E : Env) (id : string) (w : world)
    (doc : gmap string pyval) (cl : list pyval) :
  Col.lookup (by_id id) (docs w) = Some doc →
  doc !! "status" = Some (PStr "active") →
  doc !! "clusters" = Some (PList cl) →
  reset E id w =
  (let ty := Py.get_or doc "type" (PStr "") in
   let url := Py.get_or doc "daemon_url" (PStr "") in
   match cl with
   | [] =>
     (Ok (reset_container_host E ty url),
      World (docs w) (next_oid w)
        (trace w ++ [ColFindOne (by_id id); ColFindOne (by_id id);
                     ResetContainerHost ty url]))
   | _ :: _ =>
     (Ok (PBool false),
      emit (ColFindOne (by_id id)) (emit (ColFindOne (by_id id)) w))
   end).
Proof.
  intros Hl Hs Hcl. unfold reset.
  rewrite (check_status_open _ _ _ _ Hl Hs).
  unfold reset_body. rewrite bind_run.
  rewrite (get_by_id_found _ _ doc) by done.
  pose proof (by_id_truthy _ _ _ Hl) as Ht.
  rewrite (serialize_truthy _ Ht). cbn [negb].
  rewrite !serialize_get by (done || (unfold keys; set_solver)).
  rewrite (get_or_some _ _ _ _ Hcl). cbn [Py.len]. mrun. cbv zeta.
  destruct cl as [|c cl].
  - change (0 <? Z.of_nat (length (@nil pyval)))%Z with false.
    unfold call_reset_container_host.
    rewrite bind_run. cbn [Col.note ret]. unfold emit.
    cbn [docs next_oid trace]. by rewrite <- !app_assoc.
  - destruct (Z.ltb_spec 0 (Z.of_nat (length (c :: cl)))) as [_|Hle];
      [done | simpl in Hle; lia].
Qed.

(** X10, on a host with one cluster: nothing is reset. *)
Lemma reset_by_clusters_witness :
  let w := ex_world "active" 2 [PStr "c1"] in
  reset (ex_env true) "h1" w =
  (Ok (PBool false),
   emit (ColFindOne (by_id "h1")) (emit (ColFindOne (by_id "h1")) w)).
Proof.
  apply (reset_by_clusters (ex_env true) "h1"
           (ex_world "active" 2 [PStr "c1"])
           (ex_host "active" 2 [PStr "c1"]) [PStr "c1"]); reflexivity.
Defined.

(** ** What only reads *)

Lemma same_store_emit (w : world) (e : event) (w' : world) :
  same_store w w' → same_store w (emit e w').
Proof. by intros [? ?]. Qed.

Lemma preserves_reset (I : world → Prop)
    (Hemit : ∀ e w, I w → I (emit e w)) (E : Env) (id : string) :
  preserves I (reset E id).
Proof.
  apply preserves_check_status; [done|]. unfold reset_body.
  apply preserves_bind; [by apply preserves_get_by_id | intros host].
  destruct (negb (Py.truthy_dict host)); [apply preserves_ret|].
  apply preserves_bind; [apply preserves_lift | intros n].
  destruct (0 <? n)%Z; [apply preserves_ret|].
  unfold call_reset_container_host.
  apply preserves_bind; [by apply preserves_note | intros _].
  apply preserves_ret.
Qed.

(** X11.  [get_by_id], [is_active], [get_active_host_by_id], [list],
    [fillup], [reset] and [update] leave the documents and the next id of the
    store as they found them, on every input and whether they return or
    raise. *)
Theorem reading_methods_keep_the_store (C : Common) (E : Env)
    (int_of_str : string → option Z) (id : string) (filter_data : query)
    (d : gmap string pyval) (w : world) :
  same_store w (get_by_id id w).2 ∧
  same_store w (is_active id w).2 ∧
  same_store w (get_active_host_by_id id w).2 ∧
  same_store w (list_hosts filter_data w).2 ∧
  same_store w (fillup E id w).2 ∧
  same_store w (reset E id w).2 ∧
  same_store w (update C int_of_str id (w, d)).2.1.
Proof.
  pose proof (same_store_emit w) as Hemit.
  assert (same_store w w) as Hw by done.
  split; [apply (preserves_get_by_id _ Hemit id w Hw)|].
  split; [apply (preserves_is_active _ Hemit id w Hw)|].
  split; [by rewrite get_active_host_by_id_run|].
  split; [done|].
  split; [apply (preserves_fillup _ Hemit E id w Hw)|].
  split; [apply (preserves_reset _ Hemit E id w Hw)|].
  destruct (update_never_returns_record C int_of_str id w d)
    as (r & d' & -> & _).
  done.
Qed.

(** ** After [clean] *)

(** X12.  After [clean] on an active host with clusters, the host reads as
    schedulable, with the boolean [True], whatever it held in that field
    before; its other fields read as before. *)
Theorem clean_leaves_host_schedulable (id : string) (w : world)
    (doc : gmap string pyval) (cl : list pyval) :
  Col.lookup (by_id id) (docs w) = Some doc →
  doc !! "status" = Some (PStr "active") →
  doc !! "clusters" = Some (PList cl) →
  cl ≠ [] →
  (get_by_id id (clean id w).2).1 =
  Ok (<["schedulable" := PBool true]> (_serialize (Some doc))).
Proof.
  intros Hl Hs Hcl Hne. pose proof (by_id_truthy _ _ _ Hl) as Ht.
  rewrite (clean_with_clusters _ _ _ _ Hl Hs Hcl Hne). cbn [snd].
  rewrite (get_by_id_found id _
             ({["schedulable" := PBool true]}
                ∪ ({["schedulable" := PBool false]} ∪ doc))).
  - cbn [fst]. f_equal.
    rewrite !serialize_set; [by rewrite insert_insert_eq | done | in_keys | | in_keys].
    eapply (truthy_dict_lookup _ "schedulable").
    by rewrite lookup_union_l', lookup_singleton_eq
      by (by rewrite lookup_singleton_eq).
  - cbn [docs]. apply lookup_after_set; [done|]. by apply lookup_after_set.
Qed.

(** X12, on a host created unschedulable, with one cluster. *)
Lemma clean_leaves_host_schedulable_witness :
  (get_by_id "h1" (clean "h1" (ex_world "active" 2 [PStr "c1"])).2).1 =
  Ok (<["schedulable" := PBool true]>
        (_serialize (Some (ex_host "active" 2 [PStr "c1"])))).
Proof.
  apply (clean_leaves_host_schedulable "h1" (ex_world "active" 2 [PStr "c1"])
           (ex_host "active" 2 [PStr "c1"]) [PStr "c1"]);
    first [reflexivity | discriminate].
Defined.

(** ** After [delete] *)

Lemma delete_removes (id : string) (w : world) (doc : gmap string pyval) :
  Col.lookup (by_id id) (docs w) = Some doc →
  doc !! "clusters" = Some (PList []) →
  (delete id w).1 = Ok true ∧
  docs (delete id w).2 = Col.remove (by_id id) (docs w).
Proof.
  intros Hl Hcl. unfold delete. rewrite bind_run.
  rewrite (get_by_id_found _ _ _ Hl).
  pose proof (by_id_truthy _ _ _ Hl) as Ht.
  rewrite (serialize_truthy _ Ht). cbn [negb].
  rewrite (get_or_some _ "clusters" (PList []));
    [| rewrite serialize_lookup by (done || in_keys);
       by rewrite (get_or_some _ _ _ _ Hcl)].
  cbn [Py.truthy]. unfold call_cleanup_container_host. run. done.
Qed.

Lemma delete_missing (id : string) (w : world) :
  Col.lookup (by_id id) (docs w) = None →
  delete id w = (Ok false, emit (ColFindOne (by_id id)) w).
Proof.
  intros Hl. unfold delete. rewrite bind_run.
  rewrite (get_by_id_missing _ _ Hl). by rewrite truthy_dict_empty.
Qed.

(** X13.  When exactly one document answers to [id] and it has no
    clusters, [delete] returns [True] and the host is gone: a [get_by_id]
    that follows returns the empty dict, a second [delete] returns [False]
    and calls neither the cleanup nor the store's delete, and the collection
    holds one document less. *)
Theorem delete_then_host_is_gone (id : string) (w : world)
    (doc : gmap string pyval) :
  Col.lookup (by_id id) (docs w) = Some doc →
  doc !! "clusters" = Some (PList []) →
  hosts_with_id id (docs w) = 1 →
  (delete id w).1 = Ok true ∧
  get_by_id id (delete id w).2 =
    (Ok ∅, emit (ColFindOne (by_id id)) (delete id w).2) ∧
  delete id (delete id w).2 =
    (Ok false, emit (ColFindOne (by_id id)) (delete id w).2) ∧
  S (length (docs (delete id w).2)) = length (docs w).
Proof.
  intros Hl Hcl Hone. destruct (delete_removes _ _ _ Hl Hcl) as [Hr Hd].
  assert (Col.lookup (by_id id) (docs (delete id w).2) = None) as Hgone.
  { rewrite Hd. apply lookup_none_filter. rewrite filter_remove.
    unfold hosts_with_id in Hone.
    destruct (List.filter _ (docs w)) as [|x [|y l]]; done. }
  split; [done|].
  split; [by apply get_by_id_missing|].
  split; [by apply delete_missing|].
  rewrite Hd. destruct (remove_first_match _ _ _ Hl)
    as (before & after & -> & _ & ->).
  rewrite !length_app. cbn [length]. lia.
Qed.

(** X13, on the example host. *)
Lemma delete_then_host_is_gone_witness :
  let w' := (delete "h1" (ex_world "active" 2 [])).2 in
  (delete "h1" (ex_world "active" 2 [])).1 = Ok true ∧
  get_by_id "h1" w' = (Ok ∅, emit (ColFindOne (by_id "h1")) w') ∧
  delete "h1" w' = (Ok false, emit (ColFindOne (by_id "h1")) w') ∧
  S (length (docs w')) = 1.
Proof.
  apply (delete_then_host_is_gone "h1" (ex_world "active" 2 [])
           (ex_host "active" 2 [])); reflexivity.
Defined.

(** ** Other hosts *)

(** A write aimed at [id] keeps what a read by [id'] finds, when the
    document found does not answer to [id]. *)
Section Frame.

Context (id id' : string) (doc' : gmap string pyval).
Context (Hother : Col.matches (by_id id) doc' = false).

Local Abbreviation found_as_before :=
  (λ w : world, Col.lookup (by_id id') (docs w) = Some doc').

Lemma frame_emit (e : event) (w : world) :
  found_as_before w → found_as_before (emit e w).
Proof. done. Qed.

Lemma frame_set (k : string) (v : pyval) :
  k ≠ "id" → preserves found_as_before (db_set_by_id id [] {[k := v]}).
Proof.
  intros Hk w Hw. split; [done|]. rewrite db_set_by_id_run. cbn [snd docs].
  apply lookup_modify_other; [|done..].
  intros x. by apply matches_by_id_set.
Qed.

Lemma frame_delete_one :
  preserves found_as_before (Col.delete_one (by_id id)).
Proof.
  intros w Hw. split; [done|]. cbn [Col.delete_one bind Col.note snd docs emit].
  by apply lookup_remove_other.
Qed.

Lemma frame_delete : preserves found_as_before (delete id).
Proof.
  unfold delete.
  apply preserves_bind; [apply preserves_get_by_id, frame_emit | intros h].
  destruct (negb (Py.truthy_dict h)); [apply preserves_ret|].
  destruct (Py.truthy _); [apply preserves_ret|].
  apply preserves_bind; [apply preserves_note, frame_emit | intros _].
  apply preserves_bind; [apply frame_delete_one | intros _].
  apply preserves_ret.
Qed.

Lemma frame_refresh_status (E : Env) :
  preserves found_as_before (refresh_status E id).
Proof.
  unfold refresh_status.
  apply preserves_bind; [apply preserves_get_by_id, frame_emit | intros h].
  destruct (negb (Py.truthy_dict h)); [apply preserves_ret|].
  apply preserves_bind; [| intros alive].
  { apply preserves_bind; [apply preserves_note, frame_emit | intros _].
    apply preserves_ret. }
  destruct (negb alive); by apply frame_set.
Qed.

Lemma frame_clean : preserves found_as_before (clean id).
Proof.
  apply preserves_check_status; [apply frame_emit|]. unfold clean_body.
  apply preserves_bind; [apply preserves_get_by_id, frame_emit | intros h].
  destruct (negb (Py.truthy_dict h)); [apply preserves_ret|].
  apply preserves_bind; [apply preserves_lift | intros n].
  destruct (n <=? 0)%Z; [apply preserves_ret|].
  apply preserves_bind; [by apply frame_set | intros host].
  apply preserves_bind; [apply preserves_lift | intros cids].
  apply preserves_bind; [| intros _].
  { apply preserves_for_each. intros cid.
    apply preserves_bind; [apply preserves_note, frame_emit | intros _].
    apply preserves_note, frame_emit. }
  apply preserves_bind; [by apply frame_set | intros _].
  apply preserves_ret.
Qed.

End Frame.

(** X14.  [delete], [refresh_status] and [clean] called for one host leave
    every other host as it reads: when the document that [get_by_id] finds
    for [id'] does not answer to [id], [get_by_id] returns the same record for
    [id'] after the call as before, whatever the call did, also when it
    raised. *)
Theorem writes_leave_other_hosts (E : Env) (id id' : string) (w : world)
    (doc' : gmap string pyval) :
  Col.lookup (by_id id') (docs w) = Some doc' →
  Col.matches (by_id id) doc' = false →
  (get_by_id id' w).1 = Ok (_serialize (Some doc')) ∧
  (get_by_id id' (delete id w).2).1 = Ok (_serialize (Some doc')) ∧
  (get_by_id id' (refresh_status E id w).2).1 = Ok (_serialize (Some doc')) ∧
  (get_by_id id' (clean id w).2).1 = Ok (_serialize (Some doc')).
Proof.
  intros Hl Hother.
  split; [by rewrite (get_by_id_found _ _ _ Hl)|].
  split; [|split].
  - destruct (frame_delete id id' doc' Hother w Hl) as [_ H].
    by rewrite (get_by_id_found _ _ _ H).
  - destruct (frame_refresh_status id id' doc' Hother E w Hl) as [_ H].
    by rewrite (get_by_id_found _ _ _ H).
  - destruct (frame_clean id id' doc' Hother w Hl) as [_ H].
    by rewrite (get_by_id_found _ _ _ H).
Qed.

(** X14, with the hosts ["h1"], which has a cluster, and ["h2"]. *)
Lemma writes_leave_other_hosts_witness :
  let other := <["id" := PStr "h2"]> (ex_host "active" 2 []) in
  let w := World [ex_host "active" 2 [PStr "c1"]; other] 2 [] in
  (get_by_id "h2" w).1 = Ok (_serialize (Some other)) ∧
  (get_by_id "h2" (delete "h1" w).2).1 = Ok (_serialize (Some other)) ∧
  (get_by_id "h2" (refresh_status (ex_env true) "h1" w).2).1 =
    Ok (_serialize (Some other)) ∧
  (get_by_id "h2" (clean "h1" w).2).1 = Ok (_serialize (Some other)).
Proof.
  apply (writes_leave_other_hosts (ex_env true) "h1" "h2"
           (World [ex_host "active" 2 [PStr "c1"];
                   <["id" := PStr "h2"]> (ex_host "active" 2 [])] 2 [])
           (<["id" := PStr "h2"]> (ex_host "active" 2 []))); reflexivity.
Defined.

(** ** [update], whatever it is given *)

Lemma update_tail_raises (C : Common) (id : string) (w : world)
    (d : gmap string pyval) :
  ∃ msg d',
    (let* c := and_then (Arg.has "log_type")
                 (let* v := Arg.item "log_type" in
                  ret (Py.eq v (LOG_TYPES_0 C))) in
     when c (Arg.setitem "log_server" (PStr "")) ;;
     let* d := Arg.this in
     let* h_new := Arg.in_world (db_set_by_id id [ADict d] ∅) in
     ret (_serialize (Some h_new))) (w, d) =
    (Raise (TypeError msg), (w, d')).
Proof.
  unfold and_then, when. mrun.
  destruct (Py.has_key d "log_type") eqn:Hk; mrun.
  - unfold Py.has_key in Hk. destruct (d !! "log_type") as [t|] eqn:Ht; [|done].
    rewrite (getitem_some _ _ _ Ht). mrun.
    destruct (Py.eq t (LOG_TYPES_0 C)); mrun; by eexists _, _.
  - by eexists _, _.
Qed.

Ltac tail_raises C id w :=
  match goal with
  | |- context [and_then (Arg.has "log_type") _ (_, ?dX)] =>
    destruct (update_tail_raises C id w dX) as (msg & d' & Heq);
    exists msg, d'; exact Heq
  end.

(** Past the guard on the capacity, [update_rest] raises at the call of
    [db_set_by_id]. *)
Lemma update_rest_raises (C : Common) (int_of_str : string → option Z)
    (id : string) (h_old : gmap string pyval) (w : world)
    (d : gmap string pyval) (v : pyval) (z : Z) (cl : list pyval) :
  d !! "capacity" = Some v →
  Py.int int_of_str v = Ok z →
  Py.get h_old "clusters" = PList cl →
  (Z.of_nat (length cl) ≤ z)%Z →
  (d !! "log_server" = None ∨ ∃ s, d !! "log_server" = Some (PStr s)) →
  ∃ msg d',
    update_rest C int_of_str id h_old (w, d) = (Raise (TypeError msg), (w, d')).
Proof.
  intros Hc Hint Hcl Hle Hls. unfold update_rest.
  unfold when at 1. mrun. rewrite (has_key_some _ _ _ Hc). mrun.
  rewrite (getitem_some _ _ _ Hc). rewrite Hint. mrun.
  rewrite (getitem_some _ "capacity" (PInt z)) by apply lookup_insert_eq.
  rewrite Hcl. cbn [Py.len Py.lt Py.as_int]. mrun.
  destruct (Z.ltb_spec z (Z.of_nat (length cl))) as [|_]; [lia|].
  unfold and_then at 1. unfold when at 1. mrun.
  destruct Hls as [Hn|[s Hs]].
  - rewrite has_key_none by (by rewrite lookup_insert_ne). mrun.
    tail_raises C id w.
  - rewrite (has_key_some _ _ (PStr s)) by (by rewrite lookup_insert_ne).
    mrun.
    rewrite (getitem_some _ _ (PStr s)) by (by rewrite lookup_insert_ne).
    cbn [Py.str_in]. mrun.
    destruct (contains "://" s); mrun.
    + tail_raises C id w.
    + rewrite (getitem_some _ _ (PStr s)) by (by rewrite lookup_insert_ne).
      cbn [Py.str_add]. mrun. tail_raises C id w.
Qed.

(** X15.  [update] never returns a record and never writes, whatever the id,
    the dict and the store: it returns the empty dict or raises, and the
    world after it is the world before plus the one read of the host. *)
Theorem update_never_succeeds (C : Common) (int_of_str : string → option Z)
    (id : string) (w : world) (d : gmap string pyval) :
  returns_record (update C int_of_str id (w, d)).1 = false ∧
  (update C int_of_str id (w, d)).2.1 = emit (ColFindOne (by_id id)) w.
Proof.
  destruct (update_never_returns_record C int_of_str id w d)
    as (r & d' & -> & Hr).
  done.
Qed.

(** X16.  For a stored host and a dict whose capacity converts to an integer
    that is at least the number of clusters of the host, and whose address
    and log server, if given, are strings, [update] raises [TypeError]: it
    gets past the guard of line 147 and fails at line 154, where the dict is
    passed by position to [db_set_by_id].  Nothing is written. *)
Theorem update_past_the_guard_raises (C : Common)
    (int_of_str : string → option Z) (id : string) (w : world)
    (d doc : gmap string pyval) (cl : list pyval) (v : pyval) (z : Z) :
  Col.lookup (by_id id) (docs w) = Some doc →
  doc !! "clusters" = Some (PList cl) →
  d !! "capacity" = Some v →
  Py.int int_of_str v = Ok z →
  (Z.of_nat (length cl) ≤ z)%Z →
  (d !! "daemon_url" = None ∨ ∃ u, d !! "daemon_url" = Some (PStr u)) →
  (d !! "log_server" = None ∨ ∃ s, d !! "log_server" = Some (PStr s)) →
  ∃ msg,
    (update C int_of_str id (w, d)).1 = Raise (TypeError msg) ∧
    (update C int_of_str id (w, d)).2.1 = emit (ColFindOne (by_id id)) w.
Proof.
  intros Hl Hcl Hc Hint Hle Hu Hls.
  pose proof (by_id_truthy _ _ _ Hl) as Ht.
  assert (Py.get (_serialize (Some doc)) "clusters" = PList cl) as Hcl'.
  { rewrite serialize_get by (done || in_keys). by apply get_or_some. }
  rewrite (update_found _ _ _ _ _ _ Hl). rewrite bind_run.
  destruct Hu as [Hu|[u Hu]].
  - rewrite (update_url_absent _ _ Hu).
    destruct (update_rest_raises C int_of_str id _ (emit (ColFindOne (by_id id)) w)
                d v z cl Hc Hint Hcl' Hle Hls) as (msg & d' & ->).
    by exists msg.
  - rewrite (update_url_str _ _ _ Hu).
    destruct (update_rest_raises C int_of_str id (_serialize (Some doc))
                (emit (ColFindOne (by_id id)) w)
                (<["daemon_url" := PStr (normalize_daemon_url u)]> d)
                v z cl) as (msg & d' & ->);
      [by rewrite lookup_insert_ne | done | done | done | | by exists msg].
    rewrite lookup_insert_ne by done. exact Hls.
Qed.

(** X16, on [update("h1", {"capacity": 3})] for a host with one cluster. *)
Lemma update_past_the_guard_raises_witness :
  ∃ msg,
    (update ex_common ex_int_of_str "h1"
       (ex_world "active" 2 [PStr "c1"], {["capacity" := PInt 3]})).1 =
    Raise (TypeError msg) ∧
    (update ex_common ex_int_of_str "h1"
       (ex_world "active" 2 [PStr "c1"], {["capacity" := PInt 3]})).2.1 =
    emit (ColFindOne (by_id "h1")) (ex_world "active" 2 [PStr "c1"]).
Proof.
  apply (update_past_the_guard_raises ex_common ex_int_of_str "h1"
           (ex_world "active" 2 [PStr "c1"]) {["capacity" := PInt 3]}
           (ex_host "active" 2 [PStr "c1"]) [PStr "c1"] (PInt 3) 3);
    first [reflexivity | simpl; lia | left; reflexivity].
Defined.

(** ** An id that no document answers to *)



(** ** [create], when it inserts *)

Lemma bind_ext {S A B : Type} (m : M S A) (k1 k2 : A → M S B) (s : S) :
  (∀ a s', k1 a s' = k2 a s') → bind m k1 s = bind m k2 s.
Proof.
  intros H. rewrite !bind_run. destruct (m s) as [[a|e] s']; [apply H | done].
Qed.

(** X18.  The flag [serialization] of [create] changes nothing: what
    [db_update_one] hands back is serialized already, and serializing it
    again gives the same dict.  With the flag set or not, [create] returns
    the same value and leaves the same world. *)
Theorem create_ignores_serialization (C : Common) (E : Env) (name : pyval)
    (u : string) (capacity : Z) (log_level log_type : pyval)
    (log_server : string) (fillup_flag : bool) (schedulable : pyval)
    (w : world) :
  create C E name u capacity log_level log_type log_server fillup_flag
    schedulable true w =
  create C E name u capacity log_level log_type log_server fillup_flag
    schedulable false w.
Proof.
  unfold create. cbv zeta.
  apply bind_ext. intros found s1. destruct (truthy_doc found); [done|].
  apply bind_ext. intros alive s2.
  apply bind_ext. intros ty s3.
  apply bind_ext. intros ok s4. destruct (negb ok); [done|].
  apply bind_ext. intros hid s5.
  unfold db_update_one. rewrite !bind_assoc.
  apply bind_ext. intros doc s6. rewrite !(bind_run (ret _)). cbn [ret].
  apply bind_ext. intros _ s7.
  by rewrite serialize_serialize.
Qed.

Lemma host_record_lookup_stored (w : world) (h : gmap string pyval)
    (k : string) :
  k ≠ "id" → k ≠ "_id" → stored_host w h !! k = h !! k.
Proof.
  intros Hk Hk'. unfold stored_host.
  rewrite lookup_union_r by (by rewrite lookup_singleton_ne).
  by rewrite lookup_insert_ne.
Qed.

Lemma stored_host_id (w : world) (h : gmap string pyval) :
  stored_host w h !! "id" = Some (PStr (oid_str (next_oid w))).
Proof.
  unfold stored_host.
  by rewrite lookup_union_l', lookup_singleton_eq
    by (by rewrite lookup_singleton_eq).
Qed.

Lemma stored_host_truthy (w : world) (h : gmap string pyval) :
  Py.truthy_dict (stored_host w h) = true.
Proof. eapply truthy_dict_lookup, stored_host_id. Qed.

Lemma stored_host_matches (w : world) (h : gmap string pyval) :
  Col.matches (by_id (oid_str (next_oid w))) (stored_host w h) = true.
Proof.
  rewrite (matches_by_id_str _ _ _ (stored_host_id w h)).
  apply String.eqb_refl.
Qed.

(** The run of [create] that inserts: the record returned, the documents,
    and every call made. *)
Lemma create_run (C : Common) (E : Env) (name : pyval) (u : string)
    (capacity : Z) (log_level log_type : pyval) (log_server : string)
    (fillup_flag : bool) (schedulable : pyval) (serialization : bool)
    (w : world) :
  truthy_doc (Col.lookup (by_url (normalize_daemon_url u)) (docs w)) = false →
  setup_container_host E
    (detect_daemon_type E (normalize_daemon_url u))
    (normalize_daemon_url u) = true →
  Col.lookup (by_oid (next_oid w)) (docs w) = None →
  Col.lookup (by_id (oid_str (next_oid w))) (docs w) = None →
  create C E name u capacity log_level log_type log_server fillup_flag
    schedulable serialization w =
  (let url := normalize_daemon_url u in
   let h := host_record C E name u capacity log_level log_type log_server
              schedulable in
   let id := oid_str (next_oid w) in
   (Ok (_serialize (Some (stored_host w h))),
    World (docs w ++ [stored_host w h]) (N.succ (next_oid w))
      (trace w ++ create_calls E w url h ++
       (if (0 <? capacity)%Z && fillup_flag then
          if check_daemon E (PStr url) then
            [ColFindOne (by_id id); ColFindOne (by_id id);
             FindFreeApiPorts id capacity] ++
            create_dispatch (find_free_api_ports E id capacity)
          else [ColFindOne (by_id id)]
        else [])))).
Proof.
  intros Hd Hs Hoid Hid. cbv zeta.
  set (h := host_record C E name u capacity log_level log_type log_server
              schedulable).
  set (h' := <["_id" := POid (next_oid w)]> h).
  assert (Col.matches (by_oid (next_oid w)) h' = true) as Hm'.
  { unfold Col.matches, by_oid, Col.match_field, h'. simpl.
    rewrite lookup_insert_eq. simpl. by rewrite N.eqb_refl. }
  unfold create. run. fold (by_url (normalize_daemon_url u)). rewrite Hd.
  unfold call_check_daemon, call_detect_daemon_type,
    call_setup_container_host. run.
  rewrite Hs. cbn [negb]. unfold db_update_one. run.
  fold (by_oid (next_oid w)).
  match goal with |- context [ColInsertOne ?x] => change x with h end.
  fold h'.
  rewrite (lookup_app_fresh _ _ _ Hoid Hm').
  rewrite (modify_app_fresh _ _ _ _ Hoid Hm').
  cbn [fmap option_fmap option_map].
  change ({["id" := PStr (oid_str (next_oid w))]} ∪ h')
    with (stored_host w h).
  rewrite bind_run. rewrite serialize_serialize.
  match goal with
  | |- context [when _ _ ?W] => set (w0 := W)
  end.
  assert (Col.lookup (by_id (oid_str (next_oid w))) (docs w0)
          = Some (stored_host w h)) as Hl0.
  { cbn [w0 docs]. apply lookup_app_fresh; [done | apply stored_host_matches]. }
  assert (stored_host w h !! "status" =
          Some (PStr (if check_daemon E (PStr (normalize_daemon_url u))
                      then "active" else "inactive"))) as Hst.
  { by rewrite host_record_lookup_stored. }
  destruct ((0 <? capacity)%Z && fillup_flag) eqn:Hc; cbn [when].
  - apply andb_prop in Hc as [Hpos%Z.ltb_lt _].
    rewrite !bind_run.
    destruct (check_daemon E (PStr (normalize_daemon_url u))).
    + rewrite (fillup_with_room E _ w0 (stored_host w h) capacity []);
        [| done | done | by rewrite host_record_lookup_stored
           | by rewrite host_record_lookup_stored | simpl; lia ].
      cbv zeta. cbn [length Z.of_nat]. rewrite Z.sub_0_r.
      cbn [ret w0 docs next_oid trace]. unfold create_calls.
      destruct serialization; unfold ret, emit; subst w0;
        cbn [docs next_oid trace];
        rewrite <- ?app_assoc; reflexivity.
    + unfold fillup. rewrite (check_status_closed _ _ w0).
      * cbn [ret w0 emit docs next_oid trace]. unfold create_calls.
        destruct serialization; unfold ret, emit; subst w0;
        cbn [docs next_oid trace];
          rewrite <- ?app_assoc; reflexivity.
      * intros doc Hdoc. rewrite Hl0 in Hdoc. injection Hdoc as <-.
        by rewrite Hst.
  - cbn [ret w0]. unfold create_calls.
    destruct serialization; unfold ret, emit; subst w0;
        cbn [docs next_oid trace];
      rewrite <- ?app_assoc; rewrite ?app_nil_r; reflexivity.
Qed.

Lemma host_record_has_keys (C : Common) (E : Env) (name : pyval) (u : string)
    (capacity : Z) (log_level log_type : pyval) (log_server : string)
    (schedulable : pyval) (w : world) (k : string) :
  k ∈ keys → k ≠ "id" →
  Some (Py.get_or
          (stored_host w
             (host_record C E name u capacity log_level log_type log_server
                schedulable)) k (PStr "")) =
  host_record C E name u capacity log_level log_type log_server schedulable
    !! k.
Proof.
  intros Hk Hid. unfold Py.get_or, keys in *.
  repeat (apply elem_of_cons in Hk as [->|Hk]); try done;
    try (rewrite host_record_lookup_stored by done; reflexivity).
  by apply elem_of_nil in Hk.
Qed.





Lemma filter_no_criteria (ds : list (gmap string pyval)) :
  List.filter (Col.matches []) ds = ds.
Proof. induction ds as [|x ds IH]; simpl; by rewrite ?IH. Qed.



Lemma contains_udp (s : string) : contains "://" ("udp://" +:+ s) = true.
Proof.
  cbn [String.app]. do 3 apply contains_tail. cbn [contains String.prefix].
  repeat (destruct (Ascii.ascii_dec _ _); [|done]). by destruct s.
Qed.



(** ** The decorator *)

(** X23.  Whatever method it wraps, [check_status] reads the host once and
    then either returns [False] without calling the method, when [is_active]
    answers [False], or hands over to the method with the same id, when
    [is_active] answers [True]: what the method returns or raises is what
    the wrapper returns or raises. *)
Theorem check_status_refuses_or_calls (func : string → M world pyval)
    (id : string) (w : world) :
  ((is_active id w).1 = Ok false ∧
   check_status func id w =
     (Ok (PBool false), emit (ColFindOne (by_id id)) w)) ∨
  ((is_active id w).1 = Ok true ∧
   check_status func id w = func id (emit (ColFindOne (by_id id)) w)).
Proof.
  unfold check_status. rewrite bind_run.
  destruct (Col.lookup (by_id id) (docs w)) as [doc|] eqn:Hl.
  - rewrite (is_active_found _ _ _ Hl). cbn [fst].
    destruct (Py.eq _ _); cbn [negb]; [by right | by left].
  - rewrite (is_active_missing _ _ Hl). by left.
Qed.

(** ** [list] after [delete] *)

(** X24.  After a [delete] that returns [True], [list] without criteria
    returns what it returned before less one record, the first one that
    [get_by_id] finds for the id; the others keep their order. *)
Theorem delete_then_list (id : string) (w : world)
    (doc : gmap string pyval) :
  Col.lookup (by_id id) (docs w) = Some doc →
  doc !! "clusters" = Some (PList []) →
  ∃ l1 r l2,
    (delete id w).1 = Ok true ∧
    (get_by_id id w).1 = Ok r ∧
    (list_hosts [] w).1 = Ok (l1 ++ r :: l2) ∧
    (list_hosts [] (delete id w).2).1 = Ok (l1 ++ l2).
Proof.
  intros Hl Hcl. destruct (delete_removes _ _ _ Hl Hcl) as [Hr Hd].
  destruct (remove_first_match _ _ _ Hl) as (before & after & Hw & _ & Hrm).
  exists ((λ doc, _serialize (Some doc)) <$> before),
    (_serialize (Some doc)), ((λ doc, _serialize (Some doc)) <$> after).
  split; [done|].
  split; [by rewrite (get_by_id_found _ _ _ Hl)|].
  unfold list_hosts, Col.find. cbn [bind ret fst].
  rewrite !filter_no_criteria, Hd, Hrm, Hw.
  by rewrite !fmap_app.
Qed.

(** X24, on the example host beside a second one. *)
Lemma delete_then_list_witness :
  let other := <["id" := PStr "h2"]> (ex_host "active" 2 []) in
  let w := World [other; ex_host "active" 2 []] 2 [] in
  ∃ l1 r l2,
    (delete "h1" w).1 = Ok true ∧
    (get_by_id "h1" w).1 = Ok r ∧
    (list_hosts [] w).1 = Ok (l1 ++ r :: l2) ∧
    (list_hosts [] (delete "h1" w).2).1 = Ok (l1 ++ l2).
Proof.
  apply (delete_then_list "h1"
           (World [<["id" := PStr "h2"]> (ex_host "active" 2 []);
                   ex_host "active" 2 []] 2 [])
           (ex_host "active" 2 [])); reflexivity.
Defined.

(** ** Ids *)


Lemma fresh_ids_emit (e : event) (w : world) :
  fresh_ids w → fresh_ids (emit e w).
Proof. done. Qed.

Lemma lookup_app_none (f : query) (ds : list (gmap string pyval))
    (x : gmap string pyval) :
  Col.lookup f ds = None → Col.matches f x = false →
  Col.lookup f (ds ++ [x]) = None.
Proof.
  unfold Col.lookup. intros Hn Hx.
  induction ds as [|d ds IH]; cbn [app List.find] in *; [by rewrite Hx|].
  destruct (Col.matches f d); [done | by apply IH].
Qed.

Lemma lookup_modify_none (f f' : query)
    (g : gmap string pyval → gmap string pyval)
    (ds : list (gmap string pyval)) :
  (∀ x, Col.matches f (g x) = Col.matches f x) →
  Col.lookup f ds = None → Col.lookup f (Col.modify f' g ds) = None.
Proof.
  intros Hg. unfold Col.lookup.
  induction ds as [|x ds IH]; cbn [Col.modify List.find]; [done|].
  destruct (Col.matches f x) eqn:Hx; [done|]. intros Hn.
  destruct (Col.matches f' x); cbn [List.find].
  - by rewrite Hg, Hx.
  - rewrite Hx. by apply IH.
Qed.

Lemma lookup_remove_none (f f' : query) (ds : list (gmap string pyval)) :
  Col.lookup f ds = None → Col.lookup f (Col.remove f' ds) = None.
Proof.
  unfold Col.lookup.
  induction ds as [|x ds IH]; cbn [Col.remove List.find]; [done|].
  destruct (Col.matches f x) eqn:Hx; [done|]. intros Hn.
  destruct (Col.matches f' x); cbn [List.find]; [done|].
  rewrite Hx. by apply IH.
Qed.

Lemma matches_by_oid_set (m : N) (k : string) (v : pyval)
    (doc : gmap string pyval) :
  k ≠ "_id" →
  Col.matches (by_oid m) ({[k := v]} ∪ doc) = Col.matches (by_oid m) doc.
Proof.
  intros Hk. unfold Col.matches, by_oid, Col.match_field. simpl.
  rewrite lookup_union_r; [done|]. by rewrite lookup_singleton_ne.
Qed.

Lemma stored_host_other_oid (w : world) (h : gmap string pyval) (m : N) :
  m ≠ next_oid w →
  Col.matches (by_oid m) (stored_host w h) = false ∧
  Col.matches (by_id (oid_str m)) (stored_host w h) = false.
Proof.
  intros Hm. split.
  - unfold Col.matches, by_oid, Col.match_field, stored_host. simpl.
    rewrite lookup_union_r by done. rewrite lookup_insert_eq. simpl.
    rewrite orb_false_r, andb_true_r. by apply N.eqb_neq.
  - rewrite (matches_by_id_str _ _ _ (stored_host_id w h)).
    apply String.eqb_neq. intros Heq. by apply (inj pretty) in Heq.
Qed.

Lemma fresh_ids_set (id k : string) (v : pyval) :
  k ≠ "id" → k ≠ "_id" →
  preserves fresh_ids (db_set_by_id id [] {[k := v]}).
Proof.
  intros Hk Hk' w Hw. split; [done|]. rewrite db_set_by_id_run.
  intros m Hm. cbn [snd docs next_oid] in *.
  destruct (Hw m Hm) as [H1 H2]. split.
  - apply lookup_modify_none; [|done]. intros x. by apply matches_by_oid_set.
  - apply lookup_modify_none; [|done]. intros x. by apply matches_by_id_set.
Qed.

Lemma fresh_ids_delete (id : string) : preserves fresh_ids (delete id).
Proof.
  unfold delete.
  apply preserves_bind;
    [apply preserves_get_by_id, fresh_ids_emit | intros h].
  destruct (negb (Py.truthy_dict h)); [apply preserves_ret|].
  destruct (Py.truthy _); [apply preserves_ret|].
  apply preserves_bind; [apply preserves_note, fresh_ids_emit | intros _].
  apply preserves_bind; [| intros _; apply preserves_ret].
  intros w Hw. split; [done|]. intros m Hm.
  cbn [Col.delete_one bind Col.note snd docs next_oid emit] in *.
  destruct (Hw m Hm) as [H1 H2]. split; by apply lookup_remove_none.
Qed.

Lemma fresh_ids_refresh_status (E : Env) (id : string) :
  preserves fresh_ids (refresh_status E id).
Proof.
  unfold refresh_status.
  apply preserves_bind;
    [apply preserves_get_by_id, fresh_ids_emit | intros h].
  destruct (negb (Py.truthy_dict h)); [apply preserves_ret|].
  apply preserves_bind; [| intros alive].
  { apply preserves_bind; [apply preserves_note, fresh_ids_emit | intros _].
    apply preserves_ret. }
  destruct (negb alive); by apply fresh_ids_set.
Qed.

Lemma fresh_ids_clean (id : string) : preserves fresh_ids (clean id).
Proof.
  apply preserves_check_status; [apply fresh_ids_emit|]. unfold clean_body.
  apply preserves_bind;
    [apply preserves_get_by_id, fresh_ids_emit | intros h].
  destruct (negb (Py.truthy_dict h)); [apply preserves_ret|].
  apply preserves_bind; [apply preserves_lift | intros n].
  destruct (n <=? 0)%Z; [apply preserves_ret|].
  apply preserves_bind; [by apply fresh_ids_set | intros host].
  apply preserves_bind; [apply preserves_lift | intros cids].
  apply preserves_bind; [| intros _].
  { apply preserves_for_each. intros cid.
    apply preserves_bind; [apply preserves_note, fresh_ids_emit | intros _].
    apply preserves_note, fresh_ids_emit. }
  apply preserves_bind; [by apply fresh_ids_set | intros _].
  apply preserves_ret.
Qed.

Lemma fresh_ids_create (C : Common) (E : Env) (name : pyval) (u : string)
    (capacity : Z) (log_level log_type : pyval) (log_server : string)
    (fillup_flag : bool) (schedulable : pyval) (serialization : bool)
    (w : world) :
  fresh_ids w →
  fresh_ids (create C E name u capacity log_level log_type log_server
               fillup_flag schedulable serialization w).2.
Proof.
  intros Hw.
  destruct (truthy_doc (Col.lookup (by_url (normalize_daemon_url u)) (docs w)))
    eqn:Hd.
  { by rewrite (create_duplicate _ _ _ _ _ _ _ _ _ _ _ _ Hd). }
  destruct (setup_container_host E
              (detect_daemon_type E (normalize_daemon_url u))
              (normalize_daemon_url u)) eqn:Hs.
  2:{ by rewrite (create_setup_failed _ _ _ _ _ _ _ _ _ _ _ _ Hd Hs). }
  destruct (Hw (next_oid w)) as [Hoid Hid]; [lia|].
  rewrite (create_run _ _ _ _ _ _ _ _ _ _ _ _ Hd Hs Hoid Hid). cbv zeta.
  intros m Hm. cbn [snd docs next_oid] in *.
  destruct (Hw m) as [H1 H2]; [lia|].
  destruct (stored_host_other_oid w
              (host_record C E name u capacity log_level log_type log_server
                 schedulable) m) as [H3 H4]; [lia|].
  split; by apply lookup_app_none.
Qed.

(** X25.  The ids of the store stay fresh.  In an empty collection no
    ObjectId is in use; and when no document carries an ObjectId that the
    store has still to give out, nor the string of one as its ["id"], this is
    still so after [create], [delete], [clean], [refresh_status], [fillup],
    [reset] and [update], whatever they are given and whether they return or
    raise. *)
Theorem ids_stay_fresh (C : Common) (E : Env)
    (int_of_str : string → option Z) :
  (∀ n t, fresh_ids (World [] n t)) ∧
  (∀ (w : world) (id : string) (d : gmap string pyval)
     (name : pyval) (u : string) (capacity : Z) (log_level log_type : pyval)
     (log_server : string) (fillup_flag : bool) (schedulable : pyval)
     (serialization : bool),
     fresh_ids w →
     fresh_ids (create C E name u capacity log_level log_type log_server
                  fillup_flag schedulable serialization w).2 ∧
     fresh_ids (delete id w).2 ∧
     fresh_ids (clean id w).2 ∧
     fresh_ids (refresh_status E id w).2 ∧
     fresh_ids (fillup E id w).2 ∧
     fresh_ids (reset E id w).2 ∧
     fresh_ids (update C int_of_str id (w, d)).2.1).
Proof.
  split; [done|].
  intros w id d name u capacity log_level log_type log_server fillup_flag
    schedulable serialization Hw.
  split; [by apply fresh_ids_create|].
  split; [apply (fresh_ids_delete id w Hw)|].
  split; [apply (fresh_ids_clean id w Hw)|].
  split; [apply (fresh_ids_refresh_status E id w Hw)|].
  split; [apply (preserves_fillup _ fresh_ids_emit E id w Hw)|].
  split; [apply (preserves_reset _ fresh_ids_emit E id w Hw)|].
  destruct (update_never_returns_record C int_of_str id w d)
    as (r & d' & -> & _).
  done.
Qed.

(** X25, on a first host created in an empty store and then cleaned. *)
Lemma ids_stay_fresh_witness :
  fresh_ids
    (clean "0"
       (create_default ex_common (ex_env true) (PStr "host-a")
          "10.0.0.1:2375" ex_empty).2).2.
Proof.
  pose proof (ids_stay_fresh ex_common (ex_env true) ex_int_of_str)
    as [Hempty Hkept].
  destruct (Hkept ex_empty "0" ∅ (PStr "host-a") "10.0.0.1:2375" 1%Z
              (PStr "DEBUG") (PStr "local") "" false (PStr "false") true)
    as [Hcreate _]; [apply Hempty|].
  destruct (Hkept _ "0" ∅ PNone "" 0%Z PNone PNone "" false PNone false
              Hcreate) as (_ & _ & Hclean & _).
  exact Hclean.
Defined.



(** ** [update] on values of the wrong type *)

Lemma update_rest_bad_capacity (C : Common) (int_of_str : string → option Z)
    (id : string) (h_old : gmap string pyval) (w : world)
    (d : gmap string pyval) (v : pyval) (e : pyexn) :
  d !! "capacity" = Some v →
  Py.int int_of_str v = Raise e →
  update_rest C int_of_str id h_old (w, d) = (Raise e, (w, d)).
Proof.
  intros Hc Hint. unfold update_rest.
  unfold when at 1. mrun. rewrite (has_key_some _ _ _ Hc). mrun.
  rewrite (getitem_some _ _ _ Hc). rewrite Hint. by mrun.
Qed.

(** X27.  On a stored host [update] raises, before any write and with the
    dict of the caller untouched, when the dict holds an address that is not
    a string, [AttributeError] at line 142, and, the address being a string
    or absent, when it holds a capacity that [int] refuses: the exception of
    [int], a [ValueError] for a string that is no number. *)
Theorem update_rejects_ill_typed_fields (C : Common)
    (int_of_str : string → option Z) (id : string) (w : world)
    (d doc : gmap string pyval) :
  Col.lookup (by_id id) (docs w) = Some doc →
  (∀ v, d !! "daemon_url" = Some v → (∀ s, v ≠ PStr s) →
        ∃ msg,
          update C int_of_str id (w, d) =
          (Raise (AttributeError msg), (emit (ColFindOne (by_id id)) w, d))) ∧
  (∀ v e, d !! "daemon_url" = None →
          d !! "capacity" = Some v →
          Py.int int_of_str v = Raise e →
          update C int_of_str id (w, d) =
          (Raise e, (emit (ColFindOne (by_id id)) w, d))) ∧
  (∀ s, d !! "daemon_url" = None →
        d !! "capacity" = Some (PStr s) →
        int_of_str s = None →
        ∃ msg,
          update C int_of_str id (w, d) =
          (Raise (ValueError msg), (emit (ColFindOne (by_id id)) w, d))).
Proof.
  intros Hl.
  assert (∀ v e, d !! "daemon_url" = None →
            d !! "capacity" = Some v →
            Py.int int_of_str v = Raise e →
            update C int_of_str id (w, d) =
            (Raise e, (emit (ColFindOne (by_id id)) w, d))) as Hcap.
  { intros v e Hu Hc Hint.
    rewrite (update_found _ _ _ _ _ _ Hl). rewrite bind_run.
    rewrite (update_url_absent _ _ Hu).
    by apply update_rest_bad_capacity with v. }
  split; [|split; [exact Hcap|]].
  - intros v Hu Hv. rewrite (update_found _ _ _ _ _ _ Hl). rewrite bind_run.
    unfold update_url, and_then. mrun.
    rewrite (has_key_some _ _ _ Hu). mrun.
    rewrite (getitem_some _ _ _ Hu).
    destruct v; cbn [Py.startswith]; mrun; try by eexists.
    by destruct (Hv s).
  - intros s Hu Hc Hs. eexists. apply (Hcap (PStr s)); [done..|].
    cbn [Py.int]. by rewrite Hs.
Qed.

(** X27, on [update("h1", {"capacity": "many"})]. *)
Lemma update_rejects_ill_typed_fields_witness :
  ∃ msg,
    update ex_common ex_int_of_str "h1"
      (ex_world "active" 2 [], {["capacity" := PStr "many"]}) =
    (Raise (ValueError msg),
     (emit (ColFindOne (by_id "h1")) (ex_world "active" 2 []),
      {["capacity" := PStr "many"]})).
Proof.
  apply (proj2 (proj2 (update_rejects_ill_typed_fields ex_common ex_int_of_str
                         "h1" (ex_world "active" 2 [])
                         {["capacity" := PStr "many"]} (ex_host "active" 2 [])
                         eq_refl)) "many"); reflexivity.
Defined.
